(** * static/js/main.js: the real-time synchronisation engine

    A shallow embedding of the polling scheduler, the four resource
    refreshers, the status classifier, the notification helper and the
    WebSocket channel of [static/js/main.js], with the properties the
    specification states about them.

    Conventions of the embedding.
    - A handler is a function in the monad [M]: it threads the [World]
      (page, console, timers, requests in flight, sockets) and ends in a
      [Completion], normal or abrupt (a thrown exception).
    - Values received from the network are [JSON] values; a property that
      is absent reads as [None] (JavaScript's [undefined]).
    - Numbers are the host's: their type and the three primitives used on
      them form the class [NumberHost].

    The one-shot actions of the file (tooltips, confirmation dialogs, form
    validation, chart, CSV export, keyboard shortcuts) are not part of the
    engine and are left out. *)

From Stdlib Require Import ZArith Ascii String DecimalString List Bool Lia.
From stdpp Require Import base option list.
Import ListNotations.
Local Open Scope string_scope.
Local Open Scope Z_scope.
Local Set Warnings "-register-all".

(** ** Strings *)

(** [String.prototype.toLowerCase] on one code unit: the letters A to Z
    move to a to z.  No character outside ASCII lowers to a string made of
    the letters used by the keywords below, so the other code units are
    left as they are. *)
Definition lower_char (c : ascii) : ascii :=
  let n := N_of_ascii c in
  if (65 <=? n)%N && (n <=? 90)%N then ascii_of_N (n + 32) else c.

Fixpoint toLowerCase (s : string) : string :=
  match s with
  | EmptyString => EmptyString
  | String c rest => String (lower_char c) (toLowerCase rest)
  end.

(** [getStatusClass] (main.js 175-183), on a string argument. *)
Definition getStatusClass (status : string) : string :=
  let key := toLowerCase status in
  if String.eqb key "executed" then "success"
  else if String.eqb key "pending" then "warning"
  else if String.eqb key "failed" then "danger"
  else if String.eqb key "cancelled" then "secondary"
  else "secondary".

(** ** Completions *)

Inductive Error : Type :=
  | TypeError
  | SyntaxError
  | NetworkError.

Inductive Completion (A : Type) : Type :=
  | Normal (a : A)
  | Throw (e : Error).
Arguments Normal {A} a.
Arguments Throw {A} e.

Definition isThrow {A : Type} (c : Completion A) : bool :=
  match c with Normal _ => false | Throw _ => true end.

(** ** The page and the host state *)

Record Element : Type := mkElement {
  textContent : string;
  className : string
}.

(** A [.trade-row] element with its [data-trade-id] attribute and the first
    [.status-badge] below it. *)
Record TradeRow : Type := mkTradeRow {
  data_trade_id : option string;
  status_badge : option Element
}.

(** An [.account-balance] element with its two data attributes. *)
Record BalanceElement : Type := mkBalanceElement {
  data_account_id : option string;
  data_account_type : option string;
  balance_element : Element
}.

(** A notification element built by [showAlert]; [alert_id] is the identity
    of the element. *)
Record Alert : Type := mkAlert {
  alert_id : nat;
  alert_className : string;
  alert_innerHTML : string
}.

Record Document : Type := mkDocument {
  trade_rows : list TradeRow;               (* querySelectorAll('.trade-row') *)
  account_balances : list BalanceElement;   (* querySelectorAll('.account-balance') *)
  copier_status : option Element;           (* getElementById('copier-status') *)
  copier_description : option Element;      (* getElementById('copier-description') *)
  api_status : option Element;              (* getElementById('api-status') *)
  api_description : option Element;         (* getElementById('api-description') *)
  container : option (list Alert)           (* querySelector('.container'), its alerts first child first *)
}.

Record Window : Type := mkWindow {
  location_protocol : string;
  location_host : string;
  WebSocket_defined : bool                  (* typeof WebSocket !== 'undefined' *)
}.

(** The view sinks the refreshers assign to. *)
Inductive Sink : Type :=
  | TradeBadge (row : nat)
  | BalanceText (i : nat)
  | CopierStatus
  | CopierDescription
  | ApiStatus
  | ApiDescription.

Inductive Field : Type :=
  | TextContent
  | ClassName.

(** The functions handed to [setInterval] and [setTimeout]. *)
Inductive Callback : Type :=
  | Cb_pollTick                             (* the function at main.js 37-42 *)
  | Cb_initWebSocket
  | Cb_closeAlert (id : nat).               (* the function at main.js 216-219 *)

Record Timer : Type := mkTimer {
  timer_callback : Callback;
  timer_due : Z;                            (* milliseconds *)
  timer_period : option Z                   (* [Some p] for setInterval *)
}.

(** The promise chain attached to a [fetch]. *)
Inductive Chain : Type :=
  | TradeStatusChain (row : nat)
  | AccountBalanceChain (i : nat)
  | CopierStatusChain
  | ApiStatusChain.

Record Request : Type := mkRequest {
  request_url : string;
  request_chain : Chain
}.

Inductive ReadyState : Type :=
  | CONNECTING
  | OPEN
  | CLOSED.

Record Socket : Type := mkSocket {
  socket_url : string;
  readyState : ReadyState
}.

Record World : Type := mkWorld {
  window : Window;
  document : Document;
  console : list string;                    (* console.log lines, oldest first *)
  timers : list Timer;                      (* pending timers *)
  inflight : list Request;                  (* fetches issued and not settled *)
  sockets : list Socket;                    (* every WebSocket constructed *)
  now : Z;                                  (* milliseconds *)
  created : nat;                            (* elements built by createElement *)
  journal : list (Sink * Field * string);   (* every assignment to a view sink, oldest first *)
  uncaught : list Error                     (* exceptions that left a handler *)
}.

Definition with_document (f : Document -> Document) (w : World) : World :=
  mkWorld (window w) (f (document w)) (console w) (timers w) (inflight w)
          (sockets w) (now w) (created w) (journal w) (uncaught w).

Definition with_console (f : list string -> list string) (w : World) : World :=
  mkWorld (window w) (document w) (f (console w)) (timers w) (inflight w)
          (sockets w) (now w) (created w) (journal w) (uncaught w).

Definition with_timers (f : list Timer -> list Timer) (w : World) : World :=
  mkWorld (window w) (document w) (console w) (f (timers w)) (inflight w)
          (sockets w) (now w) (created w) (journal w) (uncaught w).

Definition with_inflight (f : list Request -> list Request) (w : World) : World :=
  mkWorld (window w) (document w) (console w) (timers w) (f (inflight w))
          (sockets w) (now w) (created w) (journal w) (uncaught w).

Definition with_sockets (f : list Socket -> list Socket) (w : World) : World :=
  mkWorld (window w) (document w) (console w) (timers w) (inflight w)
          (f (sockets w)) (now w) (created w) (journal w) (uncaught w).

Definition with_now (f : Z -> Z) (w : World) : World :=
  mkWorld (window w) (document w) (console w) (timers w) (inflight w)
          (sockets w) (f (now w)) (created w) (journal w) (uncaught w).

Definition with_created (f : nat -> nat) (w : World) : World :=
  mkWorld (window w) (document w) (console w) (timers w) (inflight w)
          (sockets w) (now w) (f (created w)) (journal w) (uncaught w).

Definition with_journal (f : list (Sink * Field * string) -> list (Sink * Field * string))
    (w : World) : World :=
  mkWorld (window w) (document w) (console w) (timers w) (inflight w)
          (sockets w) (now w) (created w) (f (journal w)) (uncaught w).

Definition with_uncaught (f : list Error -> list Error) (w : World) : World :=
  mkWorld (window w) (document w) (console w) (timers w) (inflight w)
          (sockets w) (now w) (created w) (journal w) (f (uncaught w)).

(** Assignment to one property of an element. *)
Definition assign (f : Field) (v : string) (e : Element) : Element :=
  match f with
  | TextContent => mkElement v (className e)
  | ClassName => mkElement (textContent e) v
  end.

Definition onBadge (g : Element -> Element) (r : TradeRow) : TradeRow :=
  mkTradeRow (data_trade_id r) (g <$> status_badge r).

Definition onBalance (g : Element -> Element) (b : BalanceElement) : BalanceElement :=
  mkBalanceElement (data_account_id b) (data_account_type b) (g (balance_element b)).

(** The element behind a sink, when the page has it. *)
Definition sinkElement (s : Sink) (d : Document) : option Element :=
  match s with
  | TradeBadge row => trade_rows d !! row ≫= status_badge
  | BalanceText i => balance_element <$> account_balances d !! i
  | CopierStatus => copier_status d
  | CopierDescription => copier_description d
  | ApiStatus => api_status d
  | ApiDescription => api_description d
  end.

Definition onSink (s : Sink) (g : Element -> Element) (d : Document) : Document :=
  match s with
  | TradeBadge row =>
      mkDocument (alter (onBadge g) row (trade_rows d)) (account_balances d)
                 (copier_status d) (copier_description d) (api_status d)
                 (api_description d) (container d)
  | BalanceText i =>
      mkDocument (trade_rows d) (alter (onBalance g) i (account_balances d))
                 (copier_status d) (copier_description d) (api_status d)
                 (api_description d) (container d)
  | CopierStatus =>
      mkDocument (trade_rows d) (account_balances d) (g <$> copier_status d)
                 (copier_description d) (api_status d) (api_description d) (container d)
  | CopierDescription =>
      mkDocument (trade_rows d) (account_balances d) (copier_status d)
                 (g <$> copier_description d) (api_status d) (api_description d)
                 (container d)
  | ApiStatus =>
      mkDocument (trade_rows d) (account_balances d) (copier_status d)
                 (copier_description d) (g <$> api_status d) (api_description d)
                 (container d)
  | ApiDescription =>
      mkDocument (trade_rows d) (account_balances d) (copier_status d)
                 (copier_description d) (api_status d) (g <$> api_description d)
                 (container d)
  end.

Definition onContainer (g : list Alert -> list Alert) (d : Document) : Document :=
  mkDocument (trade_rows d) (account_balances d) (copier_status d)
             (copier_description d) (api_status d) (api_description d)
             (g <$> container d).

(** ** The handler monad: state and abrupt completion *)

Definition M (A : Type) : Type := World -> World * Completion A.

Definition ret {A : Type} (a : A) : M A := fun w => (w, Normal a).

Definition bind {A B : Type} (m : M A) (k : A -> M B) : M B :=
  fun w =>
    match m w with
    | (w', Normal a) => k a w'
    | (w', Throw e) => (w', Throw e)
    end.

Definition lift {A : Type} (c : Completion A) : M A := fun w => (w, c).

(** [try m catch (e) h], and [promise.catch(h)] on a rejected promise. *)
Definition catch {A : Type} (m : M A) (h : Error -> M A) : M A :=
  fun w =>
    match m w with
    | (w', Normal a) => (w', Normal a)
    | (w', Throw e) => h e w'
    end.

Notation "x <-- m ;; k" := (bind m (fun x => k))
  (at level 100, m at next level, right associativity).
Notation "m ;;; k" := (bind m (fun _ => k))
  (at level 100, right associativity).

Definition get : M World := fun w => (w, Normal w).
Definition modify (f : World -> World) : M unit := fun w => (f w, Normal tt).

(** [element.field = v] on a sink the handler holds. *)
Definition store (s : Sink) (f : Field) (v : string) : M unit :=
  modify (fun w => with_journal (fun j => (j ++ [(s, f, v)])%list)
                     (with_document (onSink s (assign f v)) w)).

Definition console_log (line : string) : M unit :=
  modify (with_console (fun c => (c ++ [line])%list)).

Definition setInterval (cb : Callback) (ms : Z) : M unit :=
  modify (fun w => with_timers (fun t => (t ++ [mkTimer cb (now w + ms) (Some ms)])%list) w).

Definition setTimeout (cb : Callback) (ms : Z) : M unit :=
  modify (fun w => with_timers (fun t => (t ++ [mkTimer cb (now w + ms) None])%list) w).

Definition fetch (url : string) (chain : Chain) : M unit :=
  modify (with_inflight (fun r => (r ++ [mkRequest url chain])%list)).

Definition new_WebSocket (url : string) : M unit :=
  modify (with_sockets (fun s => (s ++ [mkSocket url CONNECTING])%list)).

(** [list.forEach(f)], the callback receiving the element and its index. *)
Fixpoint forEach {A : Type} (f : nat -> A -> M unit) (i : nat) (l : list A) : M unit :=
  match l with
  | [] => ret tt
  | x :: rest => f i x ;;; forEach f (S i) rest
  end.

(** The host's numbers: their type with [ToBoolean], [Number::toString] and
    [Number.prototype.toFixed(2)]. *)
Class NumberHost : Type := {
  number : Type;
  Number_truthy : number -> bool;
  Number_toString : number -> string;
  Number_toFixed2 : number -> string
}.

Section Host.

Context {host : NumberHost}.

(** ** JSON values, as [JSON.parse] and [response.json()] build them *)

Inductive JSON : Type :=
  | JNull
  | JBool (b : bool)
  | JNum (n : number)
  | JStr (s : string)
  | JArr (items : list JSON)
  | JObj (members : list (string * JSON)).

(** Own property of a parsed object; of two members with one name the
    later one is kept. *)
Fixpoint ownProperty (key : string) (members : list (string * JSON)) : option JSON :=
  match members with
  | [] => None
  | (k, v) :: rest =>
      match ownProperty key rest with
      | Some later => Some later
      | None => if String.eqb k key then Some v else None
      end
  end.

(** [data.key] for the property names this file reads (success, status,
    balance, running, message, type, symbol, side, followers, error): a
    [TypeError] on null, the own property on an object, and [undefined] on
    primitives and arrays, whose prototypes define none of these names. *)
Definition getProp (data : JSON) (key : string) : Completion (option JSON) :=
  match data with
  | JNull => Throw TypeError
  | JObj members => Normal (ownProperty key members)
  | _ => Normal None
  end.

(** [ToBoolean]. *)
Definition truthy (v : option JSON) : bool :=
  match v with
  | None => false
  | Some JNull => false
  | Some (JBool b) => b
  | Some (JNum n) => Number_truthy n
  | Some (JStr s) => negb (String.eqb s "")
  | Some (JArr _) => true
  | Some (JObj _) => true
  end.

(** [ToString] of a parsed value.  An array joins its elements with commas,
    null elements giving the empty string; an object gives
    "[object Object]" unless an own member hides [Object.prototype.toString],
    in which case no conversion to a primitive exists. *)
Fixpoint ToString (v : JSON) : Completion string :=
  match v with
  | JNull => Normal "null"
  | JBool true => Normal "true"
  | JBool false => Normal "false"
  | JNum n => Normal (Number_toString n)
  | JStr s => Normal s
  | JArr items =>
      (fix join (l : list JSON) : Completion string :=
         match l with
         | [] => Normal ""
         | x :: rest =>
             match (match x with JNull => Normal "" | _ => ToString x end) with
             | Throw e => Throw e
             | Normal sx =>
                 match rest with
                 | [] => Normal sx
                 | _ :: _ =>
                     match join rest with
                     | Throw e => Throw e
                     | Normal sr => Normal (sx ++ "," ++ sr)
                     end
                 end
             end
         end) items
  | JObj members =>
      match ownProperty "toString" members with
      | Some _ => Throw TypeError
      | None => Normal "[object Object]"
      end
  end.

(** A substitution [${v}] of a template literal. *)
Definition template (v : option JSON) : Completion string :=
  match v with
  | None => Normal "undefined"
  | Some j => ToString j
  end.

(** The value stored by an assignment to [textContent], a nullable
    DOMString: null and undefined give the empty string. *)
Definition toTextContent (v : option JSON) : Completion string :=
  match v with
  | None => Normal ""
  | Some JNull => Normal ""
  | Some j => ToString j
  end.

(** [status.toLowerCase()] inside [getStatusClass] when the argument is any
    value: only a string has the method. *)
Definition getStatusClassOf (status : option JSON) : Completion string :=
  match status with
  | Some (JStr s) => Normal (getStatusClass s)
  | _ => Throw TypeError
  end.

(** [balance.toFixed(2)]: only a number has the method. *)
Definition toFixed2 (balance : option JSON) : Completion string :=
  match balance with
  | Some (JNum n) => Normal (Number_toFixed2 n)
  | _ => Throw TypeError
  end.

(** ** The refreshers *)

(** How a request ends: [fetch] rejects (transport failure), or
    [response.json()] rejects (the body is not JSON), or it yields data. *)
Inductive FetchOutcome : Type :=
  | FetchRejected
  | JsonRejected
  | JsonData (data : JSON).

(** [fetch(url).then(response => response.json()).then(onData).catch(onError)]
    once the request has ended. *)
Definition settle (o : FetchOutcome) (onData : JSON -> M unit) (onError : Error -> M unit)
    : M unit :=
  match o with
  | FetchRejected => onError NetworkError
  | JsonRejected => onError SyntaxError
  | JsonData data => catch (onData data) onError
  end.

(** Truthiness of what [getAttribute] returned. *)
Definition attributeSet (a : option string) : bool :=
  match a with
  | Some s => negb (String.eqb s "")
  | None => false
  end.

(** [updateTradeStatus] (main.js 49-69): the requests it issues. *)
Definition updateTradeStatus : M unit :=
  w <-- get ;;
  forEach (fun i row =>
             match data_trade_id row with
             | Some tradeId =>
                 if attributeSet (Some tradeId)
                 then fetch ("/api/trade_status/" ++ tradeId) (TradeStatusChain i)
                 else ret tt
             | None => ret tt
             end)
          0%nat (trade_rows (document w)).

(** main.js 57-65 *)
Definition updateTradeStatus_then (row : nat) (data : JSON) : M unit :=
  success <-- lift (getProp data "success") ;;
  if truthy success then
    w <-- get ;;
    match sinkElement (TradeBadge row) (document w) with
    | Some _ =>
        status <-- lift (getProp data "status") ;;
        text <-- lift (toTextContent status) ;;
        store (TradeBadge row) TextContent text ;;;
        cls <-- lift (getStatusClassOf status) ;;
        store (TradeBadge row) ClassName ("badge status-badge bg-" ++ cls)
    | None => ret tt
    end
  else ret tt.

(** main.js 66 *)
Definition updateTradeStatus_catch (error : Error) : M unit :=
  console_log "Status update failed:".

(** [updateAccountBalances] (main.js 71-89): the requests it issues. *)
Definition updateAccountBalances : M unit :=
  w <-- get ;;
  forEach (fun i element =>
             match data_account_id element, data_account_type element with
             | Some accountId, Some accountType =>
                 if attributeSet (Some accountId) && attributeSet (Some accountType)
                 then fetch ("/api/account_balance/" ++ accountType ++ "/" ++ accountId)
                            (AccountBalanceChain i)
                 else ret tt
             | _, _ => ret tt
             end)
          0%nat (account_balances (document w)).

(** main.js 81-85 *)
Definition updateAccountBalances_then (i : nat) (data : JSON) : M unit :=
  success <-- lift (getProp data "success") ;;
  if truthy success then
    balance <-- lift (getProp data "balance") ;;
    fixed <-- lift (toFixed2 balance) ;;
    store (BalanceText i) TextContent ("$" ++ fixed)
  else ret tt.

(** main.js 86 *)
Definition updateAccountBalances_catch (error : Error) : M unit :=
  console_log "Balance update failed:".

(** [updateCopierStatus] (main.js 91-122): the request it issues. *)
Definition updateCopierStatus : M unit :=
  fetch "/api/copier_status" CopierStatusChain.

(** main.js 95-110 *)
Definition updateCopierStatus_then (data : JSON) : M unit :=
  w <-- get ;;
  match copier_status (document w), copier_description (document w) with
  | Some _, Some _ =>
      running <-- lift (getProp data "running") ;;
      if truthy running then
        store CopierStatus TextContent "Running" ;;;
        store CopierStatus ClassName "badge bg-success me-2" ;;;
        store CopierDescription TextContent "Monitoring master accounts for new trades"
      else
        store CopierStatus TextContent "Stopped" ;;;
        store CopierStatus ClassName "badge bg-danger me-2" ;;;
        store CopierDescription TextContent "Trade copying service is not running"
  | _, _ => ret tt
  end.

(** main.js 111-121 *)
Definition updateCopierStatus_catch (error : Error) : M unit :=
  console_log "Copier status update failed:" ;;;
  w <-- get ;;
  match copier_status (document w), copier_description (document w) with
  | Some _, Some _ =>
      store CopierStatus TextContent "Error" ;;;
      store CopierStatus ClassName "badge bg-warning me-2" ;;;
      store CopierDescription TextContent "Unable to check service status"
  | _, _ => ret tt
  end.

(** [updateApiStatus] (main.js 124-173): the request it issues. *)
Definition updateApiStatus : M unit :=
  fetch "/api/connections_status" ApiStatusChain.

(** One [case] of main.js 134-153: label, class, then the message. *)
Definition apiStatusCase (label cls : string) (data : JSON) : M unit :=
  store ApiStatus TextContent label ;;;
  store ApiStatus ClassName cls ;;;
  message <-- lift (getProp data "message") ;;
  text <-- lift (toTextContent message) ;;
  store ApiDescription TextContent text.

(** main.js 128-161; the [switch] compares with [===] and has no default. *)
Definition updateApiStatus_then (data : JSON) : M unit :=
  w <-- get ;;
  match api_status (document w), api_description (document w) with
  | Some _, Some _ =>
      status <-- lift (getProp data "status") ;;
      match status with
      | Some (JStr s) =>
          if String.eqb s "all_connected" then
            apiStatusCase "Connected" "badge bg-success me-2" data
          else if String.eqb s "partial_connected" then
            apiStatusCase "Partial" "badge bg-warning me-2" data
          else if String.eqb s "none_connected" then
            apiStatusCase "Disconnected" "badge bg-danger me-2" data
          else if String.eqb s "no_accounts" then
            apiStatusCase "No Accounts" "badge bg-secondary me-2" data
          else if String.eqb s "error" then
            store ApiStatus TextContent "Error" ;;;
            store ApiStatus ClassName "badge bg-warning me-2" ;;;
            store ApiDescription TextContent "Unable to check API connections"
          else ret tt
      | _ => ret tt
      end
  | _, _ => ret tt
  end.

(** main.js 162-172 *)
Definition updateApiStatus_catch (error : Error) : M unit :=
  console_log "API status update failed:" ;;;
  w <-- get ;;
  match api_status (document w), api_description (document w) with
  | Some _, Some _ =>
      store ApiStatus TextContent "Error" ;;;
      store ApiStatus ClassName "badge bg-warning me-2" ;;;
      store ApiDescription TextContent "Unable to check API connections"
  | _, _ => ret tt
  end.

(** The promise chain of a request, run when the request ends. *)
Definition settleChain (c : Chain) (o : FetchOutcome) : M unit :=
  match c with
  | TradeStatusChain row => settle o (updateTradeStatus_then row) updateTradeStatus_catch
  | AccountBalanceChain i => settle o (updateAccountBalances_then i) updateAccountBalances_catch
  | CopierStatusChain => settle o updateCopierStatus_then updateCopierStatus_catch
  | ApiStatusChain => settle o updateApiStatus_then updateApiStatus_catch
  end.

(** ** The scheduler *)

(** The function handed to [setInterval] (main.js 37-42). *)
Definition pollTick : M unit :=
  updateTradeStatus ;;;
  updateAccountBalances ;;;
  updateCopierStatus ;;;
  updateApiStatus.

(** [startRealTimeUpdates] (main.js 36-47). *)
Definition startRealTimeUpdates : M unit :=
  setInterval Cb_pollTick 10000 ;;;
  updateCopierStatus ;;;
  updateApiStatus.

(** ** Notifications *)

Definition newline : string := String "010"%char "".
Definition dquote : string := String "034"%char "".

(** The markup assigned to [innerHTML] (main.js 207-210). *)
Definition alertHTML (message : string) : string :=
  newline ++ "        " ++ message ++ newline
  ++ "        <button type=" ++ dquote ++ "button" ++ dquote
  ++ " class=" ++ dquote ++ "btn-close" ++ dquote
  ++ " data-bs-dismiss=" ++ dquote ++ "alert" ++ dquote ++ "></button>"
  ++ newline ++ "    ".

(** [showAlert] (main.js 204-220).  Without a [.container] element the call
    of [insertBefore] on null throws. *)
Definition showAlert (type message : string) : M unit :=
  w <-- get ;;
  let alertContainer :=
    mkAlert (created w)
            ("alert alert-" ++ (if String.eqb type "error" then "danger" else type)
               ++ " alert-dismissible fade show")
            (alertHTML message) in
  modify (with_created S) ;;;
  match container (document w) with
  | None => lift (Throw TypeError)
  | Some _ =>
      modify (with_document (onContainer (cons alertContainer))) ;;;
      setTimeout (Cb_closeAlert (alert_id alertContainer)) 5000
  end.

(** main.js 216-219: Bootstrap's [close] takes the element off the page. *)
Definition closeAlert (id : nat) : M unit :=
  modify (with_document
            (onContainer (List.filter (fun a => negb (Nat.eqb (alert_id a) id))))).

(** ** The live channel *)

(** [handleWebSocketMessage] (main.js 251-265). *)
Definition handleWebSocketMessage (data : JSON) : M unit :=
  type <-- lift (getProp data "type") ;;
  match type with
  | Some (JStr t) =>
      if String.eqb t "new_trade" then
        symbol <-- lift (getProp data "symbol") ;;
        symbol_text <-- lift (template symbol) ;;
        side <-- lift (getProp data "side") ;;
        side_text <-- lift (template side) ;;
        showAlert "info" ("New trade detected: " ++ symbol_text ++ " " ++ side_text)
      else if String.eqb t "trade_copied" then
        followers <-- lift (getProp data "followers") ;;
        followers_text <-- lift (template followers) ;;
        showAlert "success" ("Trade copied to " ++ followers_text ++ " followers")
      else if String.eqb t "trade_failed" then
        error <-- lift (getProp data "error") ;;
        error_text <-- lift (template error) ;;
        showAlert "error" ("Trade copy failed: " ++ error_text)
      else console_log "Unknown message type:"
  | _ => console_log "Unknown message type:"
  end.

(** [initWebSocket] (main.js 223-249); the four handlers follow. *)
Definition initWebSocket : M unit :=
  w <-- get ;;
  if WebSocket_defined (window w) then
    let protocol :=
      if String.eqb (location_protocol (window w)) "https:" then "wss:" else "ws:" in
    let wsUrl := protocol ++ "//" ++ location_host (window w) ++ "/ws" in
    new_WebSocket wsUrl
  else ret tt.

(** main.js 230-232 *)
Definition ws_onopen : M unit :=
  console_log "WebSocket connected".

(** main.js 234-237; [parsed] is the completion of [JSON.parse(event.data)]. *)
Definition ws_onmessage (parsed : Completion JSON) : M unit :=
  data <-- lift parsed ;;
  handleWebSocketMessage data.

(** main.js 239-243 *)
Definition ws_onclose : M unit :=
  console_log "WebSocket disconnected" ;;;
  setTimeout Cb_initWebSocket 5000.

(** main.js 245-247 *)
Definition ws_onerror : M unit :=
  console_log "WebSocket error:".

(** ** The host's event loop *)

(** What the host can do next: let time pass, run a timer that is due,
    end a request, or deliver one of the four events of a socket. *)
Inductive Event : Type :=
  | Elapse (ms : Z)
  | TimerFires (j : nat)
  | FetchSettles (j : nat) (o : FetchOutcome)
  | SocketOpens (i : nat)
  | SocketMessage (i : nat) (parsed : Completion JSON)
  | SocketError (i : nat)
  | SocketCloses (i : nat).

(** A handler run from the event loop: an exception that leaves it is
    reported and the loop goes on. *)
Definition runHandler (m : M unit) (w : World) : World :=
  match m w with
  | (w', Normal _) => w'
  | (w', Throw e) => with_uncaught (fun u => (u ++ [e])%list) w'
  end.

Definition runCallback (cb : Callback) : M unit :=
  match cb with
  | Cb_pollTick => pollTick
  | Cb_initWebSocket => initWebSocket
  | Cb_closeAlert id => closeAlert id
  end.

Definition setReadyState (i : nat) (st : ReadyState) (l : list Socket) : list Socket :=
  alter (fun s => mkSocket (socket_url s) st) i l.

(** One turn of the event loop; [None] when the host cannot deliver the
    event: a timer fires when due, once unless it repeats; a socket opens
    from CONNECTING, receives while OPEN, and reports errors and its one
    close while not CLOSED. *)
Definition step (ev : Event) (w : World) : option World :=
  match ev with
  | Elapse ms =>
      if 0 <=? ms then Some (with_now (Z.add ms) w) else None
  | TimerFires j =>
      match timers w !! j with
      | Some t =>
          if timer_due t <=? now w then
            let rearm :=
              match timer_period t with
              | Some p => <[j := mkTimer (timer_callback t) (now w + p) (Some p)]>
              | None => delete j
              end in
            Some (runHandler (runCallback (timer_callback t)) (with_timers rearm w))
          else None
      | None => None
      end
  | FetchSettles j o =>
      match inflight w !! j with
      | Some r =>
          Some (runHandler (settleChain (request_chain r) o) (with_inflight (delete j) w))
      | None => None
      end
  | SocketOpens i =>
      match readyState <$> sockets w !! i with
      | Some CONNECTING =>
          Some (runHandler ws_onopen (with_sockets (setReadyState i OPEN) w))
      | _ => None
      end
  | SocketMessage i parsed =>
      match readyState <$> sockets w !! i with
      | Some OPEN => Some (runHandler (ws_onmessage parsed) w)
      | _ => None
      end
  | SocketError i =>
      match readyState <$> sockets w !! i with
      | Some CONNECTING | Some OPEN => Some (runHandler ws_onerror w)
      | _ => None
      end
  | SocketCloses i =>
      match readyState <$> sockets w !! i with
      | Some CONNECTING | Some OPEN =>
          Some (runHandler ws_onclose (with_sockets (setReadyState i CLOSED) w))
      | _ => None
      end
  end.

Fixpoint run (evs : list Event) (w : World) : option World :=
  match evs with
  | [] => Some w
  | ev :: rest =>
      match step ev w with
      | Some w' => run rest w'
      | None => None
      end
  end.

End Host.

(** ** Form validation and export *)

(** The form handed to [validateApiCredentials]: the values of its inputs
    named api_key and api_secret, [None] when the form has no such input. *)
Record CredentialsForm : Type := mkCredentialsForm {
  api_key_input : option string;
  api_secret_input : option string
}.

(** [form.querySelector(selector).value]: a [TypeError] on a missing input. *)
Definition inputValue (input : option string) : Completion string :=
  match input with
  | Some value => Normal value
  | None => Throw TypeError
  end.

(** [validateApiCredentials] (main.js 186-201). *)
Definition validateApiCredentials (form : CredentialsForm) : M bool :=
  apiKey <-- lift (inputValue (api_key_input form)) ;;
  apiSecret <-- lift (inputValue (api_secret_input form)) ;;
  if String.eqb apiKey "" || String.eqb apiSecret "" then
    showAlert "error" "API Key and Secret are required" ;;;
    ret false
  else if (String.length apiKey <? 10)%nat then
    showAlert "error" "API Key appears to be invalid" ;;;
    ret false
  else ret true.

(** [s.split(sep)] for a separator of one character. *)
Fixpoint String_split (sep : ascii) (s : string) : list string :=
  match s with
  | EmptyString => [EmptyString]
  | String c rest =>
      if Ascii.eqb c sep then EmptyString :: String_split sep rest
      else
        match String_split sep rest with
        | first :: others => String c first :: others
        | [] => [String c EmptyString]
        end
  end.

(** The file handed to the browser by the click on the hidden link. *)
Record Download : Type := mkDownload {
  download_name : string;
  download_content : string
}.

(** [exportTradesToCSV] (main.js 305-333).  [table] is the [.trades-table]
    element when the page has one, as the texts of the cells of its rows;
    [iso] is [new Date().toISOString()]. *)
Definition exportTradesToCSV (table : option (list (list string))) (iso : string)
    : option Download :=
  match table with
  | None => None
  | Some rows =>
      let csv := map (fun cols => String.concat "," cols) rows in
      let csvContent := String.concat newline csv in
      Some (mkDownload ("trades_" ++ hd "" (String_split "T" iso) ++ ".csv") csvContent)
  end.

(** ** Reference notions used by the statements *)

(** Equality of strings up to the case of the letters A-Z and a-z, defined
    without [toLowerCase]: two code units agree when they are equal or are
    the two cases of one letter. *)
Definition isLetter (c : ascii) : bool :=
  let n := N_of_ascii c in
  ((65 <=? n)%N && (n <=? 90)%N) || ((97 <=? n)%N && (n <=? 122)%N).

Definition swapCase (c : ascii) : ascii :=
  ascii_of_N (N.lxor (N_of_ascii c) 32).

Definition sameLetter (a b : ascii) : bool :=
  Ascii.eqb a b || (isLetter a && Ascii.eqb b (swapCase a)).

Fixpoint equalsIgnoreCase (s t : string) : bool :=
  match s, t with
  | EmptyString, EmptyString => true
  | String a s', String b t' => sameLetter a b && equalsIgnoreCase s' t'
  | _, _ => false
  end.

Definition all_ascii : list ascii := map ascii_of_nat (seq 0%nat 256%nat).

(** A response without success: the field is false or absent (a null body
    has no field to read). *)
Definition successFalseOrAbsent {host : NumberHost} (data : JSON) : bool :=
  match getProp data "success" with
  | Normal None => true
  | Normal (Some (JBool false)) => true
  | Normal (Some _) => false
  | Throw _ => true
  end.

(** A refresh attempt that failed: transport failure, parse failure, or a
    response without success. *)
Definition refreshFailed {host : NumberHost} (o : FetchOutcome) : bool :=
  match o with
  | FetchRejected => true
  | JsonRejected => true
  | JsonData data => successFalseOrAbsent data
  end.

(** The chains of the per-item refreshers (trade status, account balance). *)
Definition perItem (c : Chain) : bool :=
  match c with
  | TradeStatusChain _ | AccountBalanceChain _ => true
  | CopierStatusChain | ApiStatusChain => false
  end.

(** Refresh attempts of one target ending one after the other. *)
Definition settleAll {host : NumberHost} (c : Chain) (outcomes : list FetchOutcome)
    (w : World) : World :=
  fold_left (fun w o => runHandler (settleChain c o) w) outcomes w.

(** The class of a status badge of a given severity. *)
Definition badge (severity : string) : string :=
  "badge bg-" ++ severity ++ " me-2".

(** The categories of the connections endpoint and the display contract
    of the specification (label, severity). *)
Inductive ConnectionCategory : Type :=
  | AllConnected
  | PartialConnected
  | NoneConnected
  | NoAccounts
  | ErrorCategory.

Definition categoryToken (c : ConnectionCategory) : string :=
  match c with
  | AllConnected => "all_connected"
  | PartialConnected => "partial_connected"
  | NoneConnected => "none_connected"
  | NoAccounts => "no_accounts"
  | ErrorCategory => "error"
  end.

Definition displayTable (c : ConnectionCategory) : string * string :=
  match c with
  | AllConnected => ("Connected", "success")
  | PartialConnected => ("Partial", "warning")
  | NoneConnected => ("Disconnected", "danger")
  | NoAccounts => ("No Accounts", "secondary")
  | ErrorCategory => ("Error", "warning")
  end.

(** The assignments a handler added to the journal, and whether one of
    them went to a given sink. *)
Definition sinkIs (s : Sink) (entry : Sink * Field * string) : bool :=
  match s, fst (fst entry) with
  | TradeBadge a, TradeBadge b => Nat.eqb a b
  | BalanceText a, BalanceText b => Nat.eqb a b
  | CopierStatus, CopierStatus => true
  | CopierDescription, CopierDescription => true
  | ApiStatus, ApiStatus => true
  | ApiDescription, ApiDescription => true
  | _, _ => false
  end.

Definition wrote (s : Sink) (before after : World) : bool :=
  existsb (sinkIs s) (drop (length (journal before)) (journal after)).

(** The request a poll issues for one trade row and for one balance
    element, and the requests of the two singleton kinds. *)
Definition tradeRequest (i : nat) (row : TradeRow) : list Request :=
  match data_trade_id row with
  | Some tradeId =>
      if String.eqb tradeId "" then []
      else [mkRequest ("/api/trade_status/" ++ tradeId) (TradeStatusChain i)]
  | None => []
  end.

Definition balanceRequest (i : nat) (element : BalanceElement) : list Request :=
  match data_account_id element, data_account_type element with
  | Some accountId, Some accountType =>
      if String.eqb accountId "" || String.eqb accountType "" then []
      else [mkRequest ("/api/account_balance/" ++ accountType ++ "/" ++ accountId)
                      (AccountBalanceChain i)]
  | _, _ => []
  end.

Definition tradeRequests (d : Document) : list Request :=
  concat (imap tradeRequest (trade_rows d)).

Definition balanceRequests (d : Document) : list Request :=
  concat (imap balanceRequest (account_balances d)).

Definition copierRequest : Request := mkRequest "/api/copier_status" CopierStatusChain.
Definition apiRequest : Request := mkRequest "/api/connections_status" ApiStatusChain.

(** The pending repeating poll timers. *)
Definition isPoll (t : Timer) : bool :=
  match timer_callback t, timer_period t with
  | Cb_pollTick, Some _ => true
  | _, _ => false
  end.

Definition pollTimers (w : World) : list Timer := List.filter isPoll (timers w).

(** [n] calls of [startRealTimeUpdates], one after the other. *)
Fixpoint startTimes {host : NumberHost} (n : nat) (w : World) : World :=
  match n with
  | O => w
  | S n' => startTimes n' (fst (startRealTimeUpdates w))
  end.

(** The pending reconnection timers and the sockets that have not closed. *)
Definition isReconnect (t : Timer) : bool :=
  match timer_callback t with
  | Cb_initWebSocket => true
  | _ => false
  end.

Definition reconnectTimers (w : World) : list Timer :=
  List.filter isReconnect (timers w).

Definition isLive (s : Socket) : bool :=
  match readyState s with
  | CLOSED => false
  | _ => true
  end.

Definition liveSockets (w : World) : list Socket :=
  List.filter isLive (sockets w).

Definition oneShot (t : Timer) : bool :=
  match timer_period t with
  | None => true
  | Some _ => false
  end.

(** The channel is in order when every reconnection timer runs once and
    there is at most one thing that can lead to a connection: a socket
    that has not closed, or a pending reconnection. *)
Definition channel_ok (w : World) : Prop :=
  forallb oneShot (reconnectTimers w) = true /\
  (length (liveSockets w) + length (reconnectTimers w) <= 1)%nat.

(** The part of the world the channel invariant reads. *)
Definition channel (w : World) : list Timer * list Socket :=
  (reconnectTimers w, sockets w).

(** A handler that leaves a projection of the world as it was. *)
Definition keeps {A X : Type} (proj : World -> X) (m : M A) : Prop :=
  forall w, proj (fst (m w)) = proj w.

(** The sinks a chain assigns to. *)
Definition owns (c : Chain) (s : Sink) : bool :=
  match c, s with
  | TradeStatusChain i, TradeBadge j => Nat.eqb i j
  | AccountBalanceChain i, BalanceText j => Nat.eqb i j
  | CopierStatusChain, CopierStatus => true
  | CopierStatusChain, CopierDescription => true
  | ApiStatusChain, ApiStatus => true
  | ApiStatusChain, ApiDescription => true
  | _, _ => false
  end.

(** What a chain has no business with: everything but the page, the
    journal of assignments and the console. *)
Definition beyondPage (w : World)
    : Window * list Timer * list Request * list Socket * Z * nat * list Error :=
  (window w, timers w, inflight w, sockets w, now w, created w, uncaught w).

(** The structure of the page: the rows with their ids and whether they
    have a badge, the balance elements with their attributes, and which of
    the singleton elements and the notification area exist. *)
Definition present {A : Type} (o : option A) : bool :=
  match o with
  | Some _ => true
  | None => false
  end.

Definition shape (d : Document)
    : list (option string * bool) * list (option string * option string)
      * (bool * bool * bool * bool) * bool :=
  (map (fun r => (data_trade_id r, present (status_badge r))) (trade_rows d),
   map (fun b => (data_account_id b, data_account_type b)) (account_balances d),
   (present (copier_status d), present (copier_description d),
    present (api_status d), present (api_description d)),
   present (container d)).

(** What no turn of the event loop changes: the window, the structure of
    the page and the number of repeating poll timers. *)
Definition fixed (w : World)
    : Window * (list (option string * bool) * list (option string * option string)
                * (bool * bool * bool * bool) * bool) * nat :=
  (window w, shape (document w), length (pollTimers w)).

(** The notifications on the page. *)
Definition alerts (w : World) : list Alert :=
  default [] (container (document w)).

(** Every notification on the page was built by [createElement] before,
    and no two are the same element. *)
Definition alerts_fresh (w : World) : Prop :=
  NoDup (map alert_id (alerts w)) /\
  Forall (fun a => (alert_id a < created w)%nat) (alerts w).

(** Occurrences of a character in a string. *)
Fixpoint occurrences (c : ascii) (s : string) : nat :=
  match s with
  | EmptyString => 0%nat
  | String a rest => ((if Ascii.eqb a c then 1 else 0) + occurrences c rest)%nat
  end.

(** The URL [initWebSocket] connects to. *)
Definition channelUrl (win : Window) : string :=
  (if String.eqb (location_protocol win) "https:" then "wss:" else "ws:")
  ++ "//" ++ location_host win ++ "/ws".

(** The events that deliver a message of a socket. *)
Definition isMessage {host : NumberHost} (ev : Event) : bool :=
  match ev with
  | SocketMessage _ _ => true
  | _ => false
  end.


(** The three message types [handleWebSocketMessage] knows. *)
Definition knownType (t : string) : bool :=
  String.eqb t "new_trade" || String.eqb t "trade_copied" || String.eqb t "trade_failed".

(** The credentials the form check lets through: both values given and a
    key of at least ten characters. *)
Definition credentialsValid (key secret : string) : bool :=
  negb (String.eqb key "") && negb (String.eqb secret "")
  && (10 <=? String.length key)%nat.

(** The notification of a failed form check. *)
Definition credentialsComplaint (key secret : string) : string :=
  if String.eqb key "" || String.eqb secret "" then "API Key and Secret are required"
  else "API Key appears to be invalid".

(** A cell that can be read back from the exported file: no comma and no
    line break in it. *)
Definition plainCell (cell : string) : bool :=
  Nat.eqb (occurrences "," cell) 0 && Nat.eqb (occurrences "010" cell) 0.

Definition plainTable (rows : list (list string)) : bool :=
  negb (Nat.eqb (length rows) 0)
  && forallb (fun row => negb (Nat.eqb (length row) 0) && forallb plainCell row) rows.

(** Reading the exported text back: lines, then fields. *)
Definition readCSV (content : string) : list (list string) :=
  map (String_split ",") (String_split "010" content).

(** One second, in the milliseconds of the host's timers. *)
Definition second : Z := 1000.

(** ** A page and a host to run the handlers on *)

(** A host whose numbers are the integers, printed in decimal. *)
Definition IntegerHost : NumberHost := {|
  number := Z;
  Number_truthy := fun n => negb (n =? 0);
  Number_toString := fun n => NilZero.string_of_int (Z.to_int n);
  Number_toFixed2 := fun n => NilZero.string_of_int (Z.to_int n) ++ ".00"
|}.

(** The dashboard with two trade rows, T1 and T2, one balance, the four
    singleton elements and an empty notification area. *)
Definition dashboard : Document := {|
  trade_rows :=
    [ mkTradeRow (Some "T1") (Some (mkElement "pending" "badge status-badge bg-warning"));
      mkTradeRow (Some "T2") (Some (mkElement "pending" "badge status-badge bg-warning")) ];
  account_balances :=
    [ mkBalanceElement (Some "7") (Some "master") (mkElement "$0.00" "account-balance") ];
  copier_status := Some (mkElement "Checking..." "badge bg-secondary me-2");
  copier_description := Some (mkElement "" "text-muted");
  api_status := Some (mkElement "Checking..." "badge bg-secondary me-2");
  api_description := Some (mkElement "" "text-muted");
  container := Some []
|}.

(** A page without trade rows and balances, and without the two
    description elements. *)
Definition bare_page : Document := {|
  trade_rows := [];
  account_balances := [];
  copier_status := Some (mkElement "Checking..." "badge bg-secondary me-2");
  copier_description := None;
  api_status := Some (mkElement "Checking..." "badge bg-secondary me-2");
  api_description := None;
  container := None
|}.

Definition loaded (d : Document) : World := {|
  window := mkWindow "https:" "dashboard.test" true;
  document := d;
  console := [];
  timers := [];
  inflight := [];
  sockets := [];
  now := 0;
  created := 0;
  journal := [];
  uncaught := []
|}.

(** The dashboard with its channel open. *)
Definition connected : World :=
  with_sockets (fun _ => [mkSocket "wss://dashboard.test/ws" OPEN]) (loaded dashboard).

(** A table of trades: a header and two rows. *)
Definition trades_table : list (list string) :=
  [ ["Id"; "Symbol"; "Status"]; ["T1"; "BTCUSDT"; "executed"]; ["T2"; "ETHUSDT"; "pending"] ].

(** The channel connects, reports an error and closes; five seconds later
    the reconnection runs, and the second socket closes in its turn. *)
Definition reconnecting : list (@Event IntegerHost) :=
  [ SocketOpens 0; SocketError 0; SocketCloses 0; Elapse 5000; TimerFires 0;
    SocketError 1; SocketCloses 1 ].

(** ** Properties *)

Section Properties.

Context {host : NumberHost}.

(** *** The status classifier *)

Lemma in_all_ascii (c : ascii) : In c all_ascii.
Proof.
  rewrite <- (ascii_nat_embedding c). unfold all_ascii.
  apply in_map, in_seq. pose proof (nat_ascii_bounded c). lia.
Qed.

Lemma sameLetter_table :
  forallb (fun a => forallb (fun b =>
     Bool.eqb (sameLetter a b) (Ascii.eqb (lower_char a) (lower_char b)))
     all_ascii) all_ascii = true.
Proof. vm_compute. reflexivity. Qed.

Lemma sameLetter_lower (a b : ascii) :
  sameLetter a b = Ascii.eqb (lower_char a) (lower_char b).
Proof.
  pose proof sameLetter_table as T.
  rewrite forallb_forall in T. specialize (T a (in_all_ascii a)).
  rewrite forallb_forall in T. specialize (T b (in_all_ascii b)).
  now apply Bool.eqb_prop.
Qed.

Lemma equalsIgnoreCase_lower (s t : string) :
  equalsIgnoreCase s t = true <-> toLowerCase s = toLowerCase t.
Proof.
  revert t. induction s as [|a s IH]; intros [|b t]; simpl; try easy.
  rewrite andb_true_iff, sameLetter_lower, Ascii.eqb_eq, IH.
  split; [intros [-> ->]; reflexivity | intros E; injection E; auto].
Qed.

Lemma getStatusClass_lower (s t : string) :
  toLowerCase s = toLowerCase t -> getStatusClass s = getStatusClass t.
Proof. unfold getStatusClass. intros ->. reflexivity. Qed.

Lemma equalsIgnoreCase_false (s k : string) :
  equalsIgnoreCase s k = false -> toLowerCase k = k ->
  String.eqb (toLowerCase s) k = false.
Proof.
  intros F L. apply String.eqb_neq. intros E.
  assert (equalsIgnoreCase s k = true) as T by (apply equalsIgnoreCase_lower; congruence).
  congruence.
Qed.

(** C1.  [getStatusClass] is defined on every string and follows the table:
    a string equal to "executed", "pending", "failed" or "cancelled" up to
    letter case gives success, warning, danger or secondary, and every
    other string gives secondary; two strings equal up to letter case get
    one class, as 'Pending' and 'PENDING' do; called on a string it
    completes normally, and being a function of its argument it leaves the
    argument as it was. *)
Theorem getStatusClass_table (status : string) :
  (equalsIgnoreCase status "executed" = true -> getStatusClass status = "success") /\
  (equalsIgnoreCase status "pending" = true -> getStatusClass status = "warning") /\
  (equalsIgnoreCase status "failed" = true -> getStatusClass status = "danger") /\
  (equalsIgnoreCase status "cancelled" = true -> getStatusClass status = "secondary") /\
  (equalsIgnoreCase status "executed" = false ->
   equalsIgnoreCase status "pending" = false ->
   equalsIgnoreCase status "failed" = false ->
   getStatusClass status = "secondary") /\
  (forall other : string,
     equalsIgnoreCase status other = true ->
     getStatusClass status = getStatusClass other) /\
  getStatusClass "Pending" = getStatusClass "PENDING" /\
  getStatusClassOf (Some (JStr status)) = Normal (getStatusClass status).
Proof.
  repeat split.
  - intros E. apply equalsIgnoreCase_lower in E.
    rewrite (getStatusClass_lower _ _ E). reflexivity.
  - intros E. apply equalsIgnoreCase_lower in E.
    rewrite (getStatusClass_lower _ _ E). reflexivity.
  - intros E. apply equalsIgnoreCase_lower in E.
    rewrite (getStatusClass_lower _ _ E). reflexivity.
  - intros E. apply equalsIgnoreCase_lower in E.
    rewrite (getStatusClass_lower _ _ E). reflexivity.
  - intros E1 E2 E3. unfold getStatusClass. cbv zeta.
    rewrite (equalsIgnoreCase_false _ _ E1 eq_refl),
            (equalsIgnoreCase_false _ _ E2 eq_refl),
            (equalsIgnoreCase_false _ _ E3 eq_refl).
    destruct (String.eqb _ _); reflexivity.
  - intros other E. apply getStatusClass_lower, equalsIgnoreCase_lower, E.
Qed.

(** *** Per-item refreshers under failure *)

Lemma failed_refresh_step (c : Chain) (o : FetchOutcome) (w : World) :
  perItem c = true -> refreshFailed o = true ->
  snd (settleChain c o w) = Normal tt /\
  document (fst (settleChain c o w)) = document w /\
  journal (fst (settleChain c o w)) = journal w /\
  uncaught (fst (settleChain c o w)) = uncaught w.
Proof.
  intros Hc Ho.
  destruct c; try discriminate; destruct o as [| |data]; try (now repeat split).
  - unfold refreshFailed, successFalseOrAbsent in Ho.
    unfold settleChain, settle, catch, updateTradeStatus_then, bind, lift.
    destruct (getProp data "success") as [[[]|]|]; try discriminate;
      try (now repeat split).
    destruct b; try discriminate. now repeat split.
  - unfold refreshFailed, successFalseOrAbsent in Ho.
    unfold settleChain, settle, catch, updateAccountBalances_then, bind, lift.
    destruct (getProp data "success") as [[[]|]|]; try discriminate;
      try (now repeat split).
    destruct b; try discriminate. now repeat split.
Qed.

(** C2.  A per-item refresh (trade status or account balance) that ends in
    a transport failure, a parse failure or a response whose success field
    is false or absent leaves the page as it was, assigns to no sink and
    lets no exception out; so the page after any number of consecutive
    failed refreshes of a target is the page before the first. *)
Theorem failed_per_item_refresh_keeps_view
    (c : Chain) (outcomes : list FetchOutcome) (w : World) :
  perItem c = true ->
  forallb refreshFailed outcomes = true ->
  document (settleAll c outcomes w) = document w /\
  journal (settleAll c outcomes w) = journal w /\
  uncaught (settleAll c outcomes w) = uncaught w.
Proof.
  intros Hc. revert w. unfold settleAll.
  induction outcomes as [|o rest IH]; intros w Hall; simpl.
  - auto.
  - apply andb_true_iff in Hall as [Ho Hrest].
    destruct (failed_refresh_step c o w Hc Ho) as (Hn & Hd & Hj & Hu).
    specialize (IH (runHandler (settleChain c o) w) Hrest).
    unfold runHandler in *.
    destruct (settleChain c o w) as [w1 [[]|e]]; simpl in *; try discriminate.
    destruct IH as (-> & -> & ->). auto.
Qed.

(** *** Singleton refreshers *)

Ltac open_world w :=
  destruct w as [win [rows bals cs cd as_ ad cont] con tim inf soc clock cr jr unc];
  simpl in *; subst.

Ltac run_chain :=
  unfold settleChain, settle, catch, updateCopierStatus_then, updateCopierStatus_catch,
    updateApiStatus_then, updateApiStatus_catch, apiStatusCase, store, console_log,
    modify, bind, get, lift, ret; simpl.

(** C4.  On a page that has the copier's status and description elements,
    a response whose running field is true sets the status element to
    'Running' with the success class, a response whose running field is
    false (or not truthy) sets 'Stopped' with the danger class, and a
    request that failed sets 'Error' with the warning class; the three
    displays are pairwise distinct. *)
Theorem copier_status_display
    (w : World) (status description : Element) (data : JSON) (running : option JSON) :
  copier_status (document w) = Some status ->
  copier_description (document w) = Some description ->
  getProp data "running" = Normal running ->
  let shown o := copier_status (document (fst (settleChain CopierStatusChain o w))) in
  (truthy running = true ->
   shown (JsonData data) = Some (mkElement "Running" (badge "success"))) /\
  (truthy running = false ->
   shown (JsonData data) = Some (mkElement "Stopped" (badge "danger"))) /\
  shown FetchRejected = Some (mkElement "Error" (badge "warning")) /\
  shown JsonRejected = Some (mkElement "Error" (badge "warning")) /\
  mkElement "Running" (badge "success") <> mkElement "Stopped" (badge "danger") /\
  mkElement "Running" (badge "success") <> mkElement "Error" (badge "warning") /\
  mkElement "Stopped" (badge "danger") <> mkElement "Error" (badge "warning").
Proof.
  intros Hs Hd Hr shown. subst shown. open_world w.
  repeat split; try discriminate; try reflexivity.
  - intros T. run_chain. rewrite Hr, T. reflexivity.
  - intros T. run_chain. rewrite Hr, T. reflexivity.
Qed.

Lemma drop_journal {A : Type} (j added : list A) :
  drop (length j) (j ++ added)%list = added.
Proof. apply drop_app_length. Qed.

Ltac journal_delta :=
  unfold wrote; simpl;
  repeat rewrite <- app_assoc;
  repeat rewrite drop_journal;
  try rewrite drop_all;
  simpl.

(** C10.  The singleton refreshers assign to the status element and to the
    description element together or to neither: whatever the outcome, on
    a page that lacks either of the two elements the refresher leaves the
    page as it was and assigns to no sink, also on the failure path; and on
    any page the status element is assigned to exactly when the description
    element is. *)
Theorem singleton_refresh_writes_both_or_nothing (o : FetchOutcome) (w : World) :
  (copier_status (document w) = None \/ copier_description (document w) = None ->
   document (fst (settleChain CopierStatusChain o w)) = document w /\
   journal (fst (settleChain CopierStatusChain o w)) = journal w) /\
  (api_status (document w) = None \/ api_description (document w) = None ->
   document (fst (settleChain ApiStatusChain o w)) = document w /\
   journal (fst (settleChain ApiStatusChain o w)) = journal w) /\
  wrote CopierStatus w (fst (settleChain CopierStatusChain o w))
    = wrote CopierDescription w (fst (settleChain CopierStatusChain o w)) /\
  wrote ApiStatus w (fst (settleChain ApiStatusChain o w))
    = wrote ApiDescription w (fst (settleChain ApiStatusChain o w)).
Proof.
  open_world w. repeat split.
  - destruct H as [-> | ->]; destruct o; run_chain; try reflexivity;
      destruct cs; reflexivity.
  - destruct H as [-> | ->]; destruct o; run_chain; try reflexivity;
      destruct cs; reflexivity.
  - destruct H as [-> | ->]; destruct o; run_chain; try reflexivity;
      destruct as_; reflexivity.
  - destruct H as [-> | ->]; destruct o; run_chain; try reflexivity;
      destruct as_; reflexivity.
  - destruct cs, cd, o as [| |data]; run_chain; journal_delta; try reflexivity.
    destruct (getProp data "running") as [r|?]; simpl.
    + destruct (truthy r); journal_delta; reflexivity.
    + journal_delta. reflexivity.
  - destruct as_, ad, o as [| |data]; run_chain; journal_delta; try reflexivity.
    destruct (getProp data "status") as [[[]|]|?]; simpl; journal_delta;
      try reflexivity.
    repeat (match goal with
            | |- context [if String.eqb ?a ?b then _ else _] =>
                destruct (String.eqb a b); simpl
            end);
      try (journal_delta; reflexivity);
      destruct (getProp data "message") as [m|?]; simpl;
      try (journal_delta; reflexivity);
      destruct (toTextContent m); simpl; journal_delta; reflexivity.
Qed.

(** C3, as amended.  On a page that has the API status and description
    elements, a response whose status is one of the five categories and
    whose message is a string sets the status element to the label and the
    severity class of the display table; it sets the description to the
    message as received for all_connected, partial_connected,
    none_connected and no_accounts, and to the fixed text 'Unable to check
    API connections' for error, whose message is not shown. *)
Theorem api_status_display
    (w : World) (status description : Element) (data : JSON)
    (c : ConnectionCategory) (message : string) :
  api_status (document w) = Some status ->
  api_description (document w) = Some description ->
  getProp data "status" = Normal (Some (JStr (categoryToken c))) ->
  getProp data "message" = Normal (Some (JStr message)) ->
  let w' := fst (settleChain ApiStatusChain (JsonData data) w) in
  api_status (document w')
    = Some (mkElement (fst (displayTable c)) (badge (snd (displayTable c)))) /\
  api_description (document w')
    = Some (mkElement
              (match c with
               | ErrorCategory => "Unable to check API connections"
               | _ => message
               end)
              (className description)) /\
  snd (settleChain ApiStatusChain (JsonData data) w) = Normal tt.
Proof.
  intros Hs Hd Hst Hm w'. subst w'. open_world w.
  run_chain. rewrite Hst.
  destruct c; simpl; run_chain; rewrite ?Hm; simpl; repeat split; reflexivity.
Qed.

Lemma unlisted_status (status : option JSON) :
  (forall c : ConnectionCategory, status <> Some (JStr (categoryToken c))) ->
  match status with
  | Some (JStr s) =>
      String.eqb s "all_connected" = false /\
      String.eqb s "partial_connected" = false /\
      String.eqb s "none_connected" = false /\
      String.eqb s "no_accounts" = false /\
      String.eqb s "error" = false
  | _ => True
  end.
Proof.
  intros H. destruct status as [[]|]; try exact I.
  repeat split; apply String.eqb_neq; intros ->.
  - apply (H AllConnected); reflexivity.
  - apply (H PartialConnected); reflexivity.
  - apply (H NoneConnected); reflexivity.
  - apply (H NoAccounts); reflexivity.
  - apply (H ErrorCategory); reflexivity.
Qed.

(** C5, as amended.  On a page that has both elements of the refresher:
    the copier refresher shows 'Error' with the warning class when the
    request fails (the fetch is rejected, the body is not JSON, or the body
    is null), and shows 'Stopped' with the danger class for a parsed body
    whose running field is false or absent; the connections refresher
    shows 'Error' with the warning class when the request fails in the same
    three ways or when the status is 'error', and assigns nothing for a
    parsed body whose status is absent or is none of the five category
    names. *)
Theorem singleton_failure_display
    (w : World) (e1 e2 e3 e4 : Element) (members : list (string * JSON)) :
  copier_status (document w) = Some e1 ->
  copier_description (document w) = Some e2 ->
  api_status (document w) = Some e3 ->
  api_description (document w) = Some e4 ->
  let copier o := copier_status (document (fst (settleChain CopierStatusChain o w))) in
  let api o := api_status (document (fst (settleChain ApiStatusChain o w))) in
  let failure := Some (mkElement "Error" (badge "warning")) in
  (copier FetchRejected = failure /\ copier JsonRejected = failure /\
   copier (JsonData JNull) = failure) /\
  (truthy (ownProperty "running" members) = false ->
   copier (JsonData (JObj members)) = Some (mkElement "Stopped" (badge "danger"))) /\
  (api FetchRejected = failure /\ api JsonRejected = failure /\
   api (JsonData JNull) = failure) /\
  (ownProperty "status" members = Some (JStr "error") ->
   api (JsonData (JObj members)) = failure) /\
  ((forall c : ConnectionCategory,
      ownProperty "status" members <> Some (JStr (categoryToken c))) ->
   document (fst (settleChain ApiStatusChain (JsonData (JObj members)) w)) = document w /\
   journal (fst (settleChain ApiStatusChain (JsonData (JObj members)) w)) = journal w).
Proof.
  intros Hcs Hcd Has Had copier api failure. subst copier api failure.
  open_world w. repeat split; try reflexivity.
  - intros T. run_chain. rewrite T. reflexivity.
  - intros E. run_chain. rewrite E. reflexivity.
  - run_chain. apply unlisted_status in H.
    destruct (ownProperty "status" members) as [[]|]; try reflexivity.
    destruct H as (-> & -> & -> & -> & ->). reflexivity.
  - run_chain. apply unlisted_status in H.
    destruct (ownProperty "status" members) as [[]|]; try reflexivity.
    destruct H as (-> & -> & -> & -> & ->). reflexivity.
Qed.

(** *** The scheduler *)

Lemma forEach_requests {A : Type} (body : nat -> A -> M unit)
    (request : nat -> A -> list Request) :
  (forall i x w, body i x w = (with_inflight (fun r => (r ++ request i x)%list) w, Normal tt)) ->
  forall (l : list A) (i : nat) (w : World),
    forEach body i l w
    = (with_inflight
         (fun r => (r ++ concat (imap (fun k => request (i + k)%nat) l))%list) w,
       Normal tt).
Proof.
  intros Hbody. induction l as [|x rest IH]; intros i w; simpl.
  - unfold ret. destruct w; unfold with_inflight; simpl.
    rewrite app_nil_r. reflexivity.
  - unfold bind. rewrite Hbody, IH.
    destruct w; unfold with_inflight; simpl.
    rewrite Nat.add_0_r, <- app_assoc. do 5 f_equal.
    apply imap_ext. intros k y _. simpl. f_equal. lia.
Qed.

Lemma updateTradeStatus_requests (w : World) :
  updateTradeStatus w
  = (with_inflight (fun r => (r ++ tradeRequests (document w))%list) w, Normal tt).
Proof.
  unfold updateTradeStatus, bind, get.
  rewrite (forEach_requests _ tradeRequest).
  - reflexivity.
  - intros i row w0. unfold tradeRequest, attributeSet.
    destruct (data_trade_id row) as [tradeId|].
    + destruct (String.eqb tradeId ""); simpl; [|reflexivity].
      unfold ret. destruct w0; unfold with_inflight; simpl.
      rewrite app_nil_r. reflexivity.
    + unfold ret. destruct w0; unfold with_inflight; simpl.
      rewrite app_nil_r. reflexivity.
Qed.

Lemma updateAccountBalances_requests (w : World) :
  updateAccountBalances w
  = (with_inflight (fun r => (r ++ balanceRequests (document w))%list) w, Normal tt).
Proof.
  unfold updateAccountBalances, bind, get.
  rewrite (forEach_requests _ balanceRequest).
  - reflexivity.
  - intros i element w0. unfold balanceRequest, attributeSet.
    assert (ret tt w0 = (with_inflight (fun r => (r ++ [])%list) w0, Normal tt)) as Hnone.
    { unfold ret. destruct w0; unfold with_inflight; simpl.
      rewrite app_nil_r. reflexivity. }
    destruct (data_account_id element) as [accountId|]; [|exact Hnone].
    destruct (data_account_type element) as [accountType|]; [|exact Hnone].
    destruct (String.eqb accountId ""), (String.eqb accountType ""); simpl;
      solve [exact Hnone | reflexivity].
Qed.

Lemma pollTick_requests (w : World) :
  pollTick w
  = (with_inflight
       (fun r => (r ++ tradeRequests (document w) ++ balanceRequests (document w)
                    ++ [copierRequest; apiRequest])%list) w,
     Normal tt).
Proof.
  unfold pollTick, bind.
  rewrite updateTradeStatus_requests, updateAccountBalances_requests.
  destruct w; unfold updateCopierStatus, updateApiStatus, fetch, modify, with_inflight;
    simpl.
  repeat rewrite <- app_assoc. reflexivity.
Qed.

(** C9.  [startRealTimeUpdates] issues at once the requests of the two
    singleton kinds, copier status and connections status, once each and
    no other, and arms one repeating timer of period 10 seconds.  The
    timer's function issues the requests of all four kinds: one per trade
    row that carries an id, one per balance element that carries both
    attributes, and the two singleton requests; with no trade row (no
    balance element) it issues no trade (balance) request and completes
    normally.  When the timer runs it stays armed for 10 seconds later. *)
Theorem startRealTimeUpdates_schedule (w : World) :
  startRealTimeUpdates w
  = (with_inflight (fun r => (r ++ [copierRequest; apiRequest])%list)
       (with_timers
          (fun t => (t ++ [mkTimer Cb_pollTick (now w + 10 * second)
                             (Some (10 * second))])%list) w),
     Normal tt) /\
  runCallback Cb_pollTick w
  = (with_inflight
       (fun r => (r ++ tradeRequests (document w) ++ balanceRequests (document w)
                    ++ [copierRequest; apiRequest])%list) w,
     Normal tt) /\
  (trade_rows (document w) = [] -> tradeRequests (document w) = []) /\
  (account_balances (document w) = [] -> balanceRequests (document w) = []) /\
  (forall (j : nat) (due : Z),
     timers w !! j = Some (mkTimer Cb_pollTick due (Some (10 * second))) ->
     due <= now w ->
     step (TimerFires j) w
     = Some (fst (pollTick
                    (with_timers
                       <[j := mkTimer Cb_pollTick (now w + 10 * second)
                                (Some (10 * second))]> w)))).
Proof.
  repeat split.
  - destruct w.
    unfold startRealTimeUpdates, setInterval, updateCopierStatus, updateApiStatus,
      fetch, modify, bind, with_inflight, with_timers; simpl.
    rewrite <- app_assoc. reflexivity.
  - apply pollTick_requests.
  - unfold tradeRequests. intros ->. reflexivity.
  - unfold balanceRequests. intros ->. reflexivity.
  - intros j due Hj Hdue. unfold step. rewrite Hj. simpl.
    apply Z.leb_le in Hdue. rewrite Hdue.
    unfold runHandler. rewrite !pollTick_requests. reflexivity.
Qed.

Lemma pollTimers_start (w : World) :
  length (pollTimers (fst (startRealTimeUpdates w))) = S (length (pollTimers w)).
Proof.
  destruct w; unfold pollTimers; simpl.
  rewrite List.filter_app, length_app. simpl. lia.
Qed.

(** C8, as amended.  [startRealTimeUpdates] has no guard against a second
    call: every call arms one more repeating poll timer, so after [n] calls
    the page has [n] more of them than before; one timer exists when the
    function is called once. *)
Theorem startRealTimeUpdates_adds_one_timer (n : nat) (w : World) :
  length (pollTimers (startTimes n w)) = (length (pollTimers w) + n)%nat.
Proof.
  revert w. induction n as [|n IH]; intros w; cbn [startTimes].
  - lia.
  - rewrite IH, pollTimers_start. lia.
Qed.

(** *** The live channel *)

Lemma keeps_ret {A X : Type} (proj : World -> X) (a : A) : keeps proj (ret a).
Proof. intros w. reflexivity. Qed.

Lemma keeps_lift {A X : Type} (proj : World -> X) (c : Completion A) : keeps proj (lift c).
Proof. intros w. reflexivity. Qed.

Lemma keeps_get {X : Type} (proj : World -> X) : keeps proj get.
Proof. intros w. reflexivity. Qed.

Lemma keeps_bind {A B X : Type} (proj : World -> X) (m : M A) (k : A -> M B) :
  keeps proj m -> (forall a, keeps proj (k a)) -> keeps proj (bind m k).
Proof.
  intros Hm Hk w. unfold bind. specialize (Hm w).
  destruct (m w) as [w1 [a|e]]; simpl in *; [|exact Hm].
  rewrite (Hk a w1). exact Hm.
Qed.

Lemma keeps_catch {A X : Type} (proj : World -> X) (m : M A) (h : Error -> M A) :
  keeps proj m -> (forall e, keeps proj (h e)) -> keeps proj (catch m h).
Proof.
  intros Hm Hh w. unfold catch. specialize (Hm w).
  destruct (m w) as [w1 [a|e]]; simpl in *; [exact Hm|].
  rewrite (Hh e w1). exact Hm.
Qed.

Lemma keeps_modify {X : Type} (proj : World -> X) (f : World -> World) :
  (forall w, proj (f w) = proj w) -> keeps proj (modify f).
Proof. intros Hf w. apply Hf. Qed.

Lemma keeps_runHandler {X : Type} (proj : World -> X) (m : M unit) (w : World) :
  keeps proj m -> (forall u w0, proj (with_uncaught u w0) = proj w0) ->
  proj (runHandler m w) = proj w.
Proof.
  intros Hm Hu. unfold runHandler. specialize (Hm w).
  destruct (m w) as [w1 [[]|e]]; simpl in *; [exact Hm|].
  rewrite Hu. exact Hm.
Qed.

Create HintDb frame.
#[local] Hint Resolve keeps_ret keeps_lift keeps_get : frame.

Lemma keeps_channel_store (s : Sink) (f : Field) (v : string) : keeps channel (store s f v).
Proof. apply keeps_modify. intros []. reflexivity. Qed.

Lemma keeps_channel_console_log (line : string) : keeps channel (console_log line).
Proof. apply keeps_modify. intros []. reflexivity. Qed.

Lemma keeps_channel_closeAlert (id : nat) : keeps channel (closeAlert id).
Proof. apply keeps_modify. intros []. reflexivity. Qed.

Lemma keeps_channel_showAlert (type message : string) :
  keeps channel (showAlert type message).
Proof.
  intros w. unfold showAlert, bind, get, modify, setTimeout, lift.
  destruct w as [win d con tim inf soc clock cr jr unc]; simpl.
  destruct (container d); simpl; [|reflexivity].
  unfold channel, reconnectTimers; simpl.
  rewrite List.filter_app. simpl. rewrite app_nil_r. reflexivity.
Qed.

#[local] Hint Resolve keeps_channel_store keeps_channel_console_log
  keeps_channel_closeAlert keeps_channel_showAlert : frame.

Ltac frame :=
  repeat first
    [ solve [auto with frame]
    | apply keeps_bind; [|intros ?]
    | apply keeps_catch; [|intros ?]
    | match goal with
      | |- keeps _ (match ?x with _ => _ end) => destruct x
      end ].

Lemma keeps_channel_settleChain (c : Chain) (o : FetchOutcome) :
  keeps channel (settleChain c o).
Proof.
  destruct c, o; unfold settleChain, settle, updateTradeStatus_then,
    updateTradeStatus_catch, updateAccountBalances_then, updateAccountBalances_catch,
    updateCopierStatus_then, updateCopierStatus_catch, updateApiStatus_then,
    updateApiStatus_catch, apiStatusCase; frame.
Qed.

Lemma keeps_channel_ws_onmessage (parsed : Completion JSON) :
  keeps channel (ws_onmessage parsed).
Proof. unfold ws_onmessage, handleWebSocketMessage. frame. Qed.

Lemma keeps_channel_pollTick : keeps channel pollTick.
Proof. intros w. rewrite pollTick_requests. destruct w; reflexivity. Qed.

Lemma list_split_at {A : Type} (l : list A) (j : nat) (x : A) :
  l !! j = Some x ->
  exists l1 l2 : list A,
    l = (l1 ++ x :: l2)%list /\
    delete j l = (l1 ++ l2)%list /\
    (forall y, <[j := y]> l = (l1 ++ y :: l2)%list) /\
    (forall f, alter f j l = (l1 ++ f x :: l2)%list).
Proof.
  revert j. induction l as [|a l IH]; intros [|j] Hj; simpl in Hj; try discriminate.
  - injection Hj as ->. exists [], l. repeat split.
  - destruct (IH j Hj) as (l1 & l2 & -> & Hd & Hi & Ha).
    exists (a :: l1), l2. repeat split; simpl.
    + f_equal. exact Hd.
    + intros y. f_equal. apply Hi.
    + intros f. f_equal. apply Ha.
Qed.

Lemma channel_ok_channel (w w' : World) :
  channel w' = channel w -> channel_ok w -> channel_ok w'.
Proof.
  unfold channel, channel_ok, liveSockets. intros E. injection E as -> ->. auto.
Qed.

Lemma channel_with_uncaught (u : list Error -> list Error) (w : World) :
  channel (with_uncaught u w) = channel w.
Proof. destruct w; reflexivity. Qed.

Lemma channel_ok_handler (m : M unit) (w : World) :
  keeps channel m -> channel_ok w -> channel_ok (runHandler m w).
Proof.
  intros Hm. apply channel_ok_channel.
  apply keeps_runHandler; [exact Hm | apply channel_with_uncaught].
Qed.

Lemma ws_onclose_result (w : World) :
  ws_onclose w
  = (with_timers (fun t => (t ++ [mkTimer Cb_initWebSocket (now w + 5 * second) None])%list)
       (with_console (fun c => (c ++ ["WebSocket disconnected"])%list) w),
     Normal tt).
Proof. destruct w; reflexivity. Qed.

Lemma ws_onerror_result (w : World) :
  ws_onerror w = (with_console (fun c => (c ++ ["WebSocket error:"])%list) w, Normal tt).
Proof. destruct w; reflexivity. Qed.

Lemma channel_ok_timer (w : World) (j : nat) (t : Timer) :
  timers w !! j = Some t -> channel_ok w ->
  let rearm :=
    match timer_period t with
    | Some p => <[j := mkTimer (timer_callback t) (now w + p) (Some p)]>
    | None => delete j
    end in
  channel_ok (runHandler (runCallback (timer_callback t)) (with_timers rearm w)).
Proof.
  intros Hj [Hone Hcount] rearm.
  destruct (list_split_at _ _ _ Hj) as (l1 & l2 & Hl & Hdel & Hins & _).
  destruct w as [win d con tim inf soc clock cr jr unc].
  unfold channel_ok, reconnectTimers, liveSockets in *. simpl in *. subst tim.
  rewrite List.filter_app in Hone, Hcount. simpl in Hone, Hcount.
  destruct t as [cb due period]. simpl in *.
  destruct cb.
  - (* the poll tick *)
    apply channel_ok_handler; [apply keeps_channel_pollTick|].
    unfold channel_ok, reconnectTimers, liveSockets. simpl.
    simpl in Hone, Hcount.
    subst rearm. destruct period; rewrite ?Hins, ?Hdel;
      rewrite List.filter_app; simpl; auto.
  - (* the reconnection *)
    simpl in Hone, Hcount.
    rewrite forallb_app in Hone. simpl in Hone.
    apply andb_true_iff in Hone as [Hone1 Hone2].
    apply andb_true_iff in Hone2 as [Hperiod Hone2].
    unfold oneShot in Hperiod. simpl in Hperiod.
    destruct period; [discriminate|]. subst rearm.
    rewrite length_app in Hcount. simpl in Hcount.
    unfold runHandler, runCallback, initWebSocket, bind, get, new_WebSocket, modify, ret,
      with_timers.
    simpl. rewrite Hdel. destruct (WebSocket_defined win); simpl;
      unfold channel_ok, reconnectTimers, liveSockets; simpl;
      rewrite ?List.filter_app, ?forallb_app, ?length_app; simpl;
      (split; [rewrite Hone1, Hone2; reflexivity | lia]).
  - (* the end of an alert *)
    apply channel_ok_handler; [apply keeps_channel_closeAlert|].
    unfold channel_ok, reconnectTimers, liveSockets. simpl.
    simpl in Hone, Hcount.
    subst rearm. destruct period; rewrite ?Hins, ?Hdel;
      rewrite List.filter_app; simpl; auto.
Qed.

Lemma channel_ok_open (w : World) (i : nat) (s : Socket) :
  sockets w !! i = Some s -> isLive s = true -> channel_ok w ->
  channel_ok (with_sockets (setReadyState i OPEN) w).
Proof.
  intros Hi Hlive [Hone Hcount].
  destruct (list_split_at _ _ _ Hi) as (l1 & l2 & Hl & _ & _ & Halt).
  destruct w as [win d con tim inf soc clock cr jr unc].
  unfold channel_ok, reconnectTimers, liveSockets, setReadyState in *. simpl in *.
  rewrite Halt. subst soc. split; [exact Hone|].
  rewrite List.filter_app in *. simpl in *. rewrite Hlive in Hcount.
  rewrite length_app in *. simpl in *. exact Hcount.
Qed.

Lemma channel_ok_close (w : World) (i : nat) (s : Socket) :
  sockets w !! i = Some s -> isLive s = true -> channel_ok w ->
  channel_ok (runHandler ws_onclose (with_sockets (setReadyState i CLOSED) w)).
Proof.
  intros Hi Hlive [Hone Hcount].
  destruct (list_split_at _ _ _ Hi) as (l1 & l2 & Hl & _ & _ & Halt).
  unfold runHandler. rewrite ws_onclose_result.
  destruct w as [win d con tim inf soc clock cr jr unc].
  unfold channel_ok, reconnectTimers, liveSockets, setReadyState in *. simpl in *.
  rewrite Halt. subst soc.
  rewrite !List.filter_app in *. simpl in *. rewrite Hlive in Hcount.
  rewrite forallb_app, !length_app in *. simpl in *.
  split; [rewrite Hone; reflexivity | lia].
Qed.

(** Every turn of the event loop keeps the channel in order. *)
Lemma step_channel_ok (ev : Event) (w w' : World) :
  channel_ok w -> step ev w = Some w' -> channel_ok w'.
Proof.
  intros Hok Hstep. destruct ev as [ms|j|j o|i|i parsed|i|i]; simpl in Hstep.
  - destruct (0 <=? ms); [|discriminate]. injection Hstep as <-.
    revert Hok. apply channel_ok_channel. destruct w; reflexivity.
  - destruct (timers w !! j) as [t|] eqn:Hj; [|discriminate].
    destruct (timer_due t <=? now w); [|discriminate]. injection Hstep as <-.
    apply (channel_ok_timer w j t Hj Hok).
  - destruct (inflight w !! j) as [r|]; [|discriminate]. injection Hstep as <-.
    apply channel_ok_handler; [apply keeps_channel_settleChain|].
    revert Hok. apply channel_ok_channel. destruct w; reflexivity.
  - destruct (sockets w !! i) as [s|] eqn:Hi; simpl in Hstep; [|discriminate].
    destruct (readyState s) eqn:Hr; try discriminate. injection Hstep as <-.
    apply channel_ok_handler; [unfold ws_onopen; auto with frame|].
    apply (channel_ok_open w i s Hi); [unfold isLive; rewrite Hr; reflexivity | exact Hok].
  - destruct (sockets w !! i) as [s|] eqn:Hi; simpl in Hstep; [|discriminate].
    destruct (readyState s) eqn:Hr; try discriminate. injection Hstep as <-.
    apply channel_ok_handler; [apply keeps_channel_ws_onmessage | exact Hok].
  - destruct (sockets w !! i) as [s|] eqn:Hi; simpl in Hstep; [|discriminate].
    destruct (readyState s) eqn:Hr; try discriminate; injection Hstep as <-;
      (apply channel_ok_handler; [unfold ws_onerror; auto with frame | exact Hok]).
  - destruct (sockets w !! i) as [s|] eqn:Hi; simpl in Hstep; [|discriminate].
    destruct (readyState s) eqn:Hr; try discriminate; injection Hstep as <-;
      (apply (channel_ok_close w i s Hi);
       [unfold isLive; rewrite Hr; reflexivity | exact Hok]).
Qed.

Lemma run_channel_ok (evs : list Event) (w w' : World) :
  channel_ok w -> run evs w = Some w' -> channel_ok w'.
Proof.
  revert w. induction evs as [|ev rest IH]; intros w Hok Hrun; simpl in Hrun.
  - injection Hrun as <-. exact Hok.
  - destruct (step ev w) as [w1|] eqn:Hstep; [|discriminate].
    apply (IH w1); [apply (step_channel_ok ev w w1 Hok Hstep) | exact Hrun].
Qed.

Lemma initWebSocket_channel_ok (w : World) :
  sockets w = [] -> reconnectTimers w = [] -> channel_ok (fst (initWebSocket w)).
Proof.
  intros Hs Ht.
  destruct w as [win d con tim inf soc clock cr jr unc].
  unfold channel_ok, reconnectTimers, liveSockets in *. simpl in *. subst soc.
  unfold initWebSocket, bind, get, new_WebSocket, modify, ret. simpl.
  destruct (WebSocket_defined win); simpl; rewrite Ht; simpl; split; auto.
Qed.

(** C6.  A socket that has not closed can close, and its close event
    schedules exactly one timer, a single run of [initWebSocket] due 5
    seconds later; an error event schedules nothing and leaves timers and
    sockets as they were; a timer never runs before it is due.  So, from a
    page without sockets or reconnection timers on which [initWebSocket]
    is called, whatever events follow, at most one reconnection timer is
    pending at any time, and none while a socket is still connecting or
    open. *)
Theorem reconnection_policy :
  (forall (w : World) (i : nat) (s : Socket),
     sockets w !! i = Some s -> isLive s = true ->
     exists w' : World,
       step (SocketCloses i) w = Some w' /\
       timers w'
       = (timers w ++ [mkTimer Cb_initWebSocket (now w + 5 * second) None])%list) /\
  (forall (w w' : World) (i : nat),
     step (SocketError i) w = Some w' ->
     timers w' = timers w /\ sockets w' = sockets w) /\
  (forall (w w' : World) (j : nat) (t : Timer),
     timers w !! j = Some t -> step (TimerFires j) w = Some w' ->
     timer_due t <= now w) /\
  (forall (w0 w : World) (evs : list Event),
     sockets w0 = [] -> reconnectTimers w0 = [] ->
     run evs (fst (initWebSocket w0)) = Some w ->
     (length (reconnectTimers w) <= 1)%nat /\
     (length (liveSockets w) + length (reconnectTimers w) <= 1)%nat).
Proof.
  repeat split.
  - intros w i s Hi Hlive. unfold step. rewrite Hi. simpl.
    unfold isLive in Hlive. unfold runHandler. rewrite ws_onclose_result.
    destruct (readyState s); try discriminate; eexists; (split; [reflexivity|]);
      destruct w; reflexivity.
  - unfold step in H. destruct (readyState <$> sockets w !! i) as [[]|];
      try discriminate; injection H as <-; unfold runHandler;
      rewrite ws_onerror_result; destruct w; reflexivity.
  - unfold step in H. destruct (readyState <$> sockets w !! i) as [[]|];
      try discriminate; injection H as <-; unfold runHandler;
      rewrite ws_onerror_result; destruct w; reflexivity.
  - intros w w' j t Hj Hstep. unfold step in Hstep. rewrite Hj in Hstep.
    destruct (timer_due t <=? now w) eqn:Hdue; [|discriminate].
    apply Z.leb_le. exact Hdue.
  - pose proof (run_channel_ok evs _ w (initWebSocket_channel_ok w0 H H0) H1) as [_ Hc].
    lia.
  - pose proof (run_channel_ok evs _ w (initWebSocket_channel_ok w0 H H0) H1) as [_ Hc].
    exact Hc.
Qed.

Lemma showAlert_result (type message : string) (w : World) (alerts : list Alert) :
  container (document w) = Some alerts ->
  let shown :=
    mkAlert (created w)
            ("alert alert-" ++ (if String.eqb type "error" then "danger" else type)
               ++ " alert-dismissible fade show")
            (alertHTML message) in
  snd (showAlert type message w) = Normal tt /\
  container (document (fst (showAlert type message w))) = Some (shown :: alerts).
Proof.
  intros Hc shown. subst shown. open_world w.
  unfold showAlert, bind, get, modify, setTimeout, lift. simpl. split; reflexivity.
Qed.

(** X14.  A parsed message that is not null and whose type is none of the
    three known ones (or is missing, or is no string) is logged and
    dropped: no exception, no notification, nothing but the console
    changes. *)
Lemma handleWebSocketMessage_unknown (data : JSON) (type : option JSON) (w : World) :
  getProp data "type" = Normal type ->
  (forall t : string, type = Some (JStr t) ->
     t <> "new_trade" /\ t <> "trade_copied" /\ t <> "trade_failed") ->
  handleWebSocketMessage data w
  = (with_console (fun c => (c ++ ["Unknown message type:"])%list) w, Normal tt).
Proof.
  intros Ht Hother. unfold handleWebSocketMessage, bind, lift. rewrite Ht.
  destruct type as [[]|]; try reflexivity.
  destruct (Hother s eq_refl) as (H1 & H2 & H3).
  apply String.eqb_neq in H1, H2, H3. rewrite H1, H2, H3. reflexivity.
Qed.

(** X13.  A message of a known type puts exactly one notification on top
    of a page that has the notification container, when its payload
    converts to text: info for new_trade, success for trade_copied, danger
    for trade_failed, each with its text built from the payload. *)
Lemma handleWebSocketMessage_known
    (members : list (string * JSON)) (w : World) (alerts : list Alert) :
  container (document w) = Some alerts ->
  let notifies (cls text : string) :=
    snd (handleWebSocketMessage (JObj members) w) = Normal tt /\
    container (document (fst (handleWebSocketMessage (JObj members) w)))
    = Some (mkAlert (created w) cls (alertHTML text) :: alerts) in
  (forall symbol side : string,
     ownProperty "type" members = Some (JStr "new_trade") ->
     template (ownProperty "symbol" members) = Normal symbol ->
     template (ownProperty "side" members) = Normal side ->
     notifies "alert alert-info alert-dismissible fade show"
              ("New trade detected: " ++ symbol ++ " " ++ side)) /\
  (forall followers : string,
     ownProperty "type" members = Some (JStr "trade_copied") ->
     template (ownProperty "followers" members) = Normal followers ->
     notifies "alert alert-success alert-dismissible fade show"
              ("Trade copied to " ++ followers ++ " followers")) /\
  (forall error : string,
     ownProperty "type" members = Some (JStr "trade_failed") ->
     template (ownProperty "error" members) = Normal error ->
     notifies "alert alert-danger alert-dismissible fade show"
              ("Trade copy failed: " ++ error)).
Proof.
  intros Hc notifies. subst notifies.
  unfold handleWebSocketMessage, bind, lift. simpl. repeat split.
  - rewrite H, H0, H1. simpl. apply (showAlert_result "info" _ w alerts Hc).
  - rewrite H, H0, H1. simpl. apply (showAlert_result "info" _ w alerts Hc).
  - rewrite H, H0. simpl. apply (showAlert_result "success" _ w alerts Hc).
  - rewrite H, H0. simpl. apply (showAlert_result "success" _ w alerts Hc).
  - rewrite H, H0. simpl. apply (showAlert_result "error" _ w alerts Hc).
  - rewrite H, H0. simpl. apply (showAlert_result "error" _ w alerts Hc).
Qed.

(** C7, at a body that is not JSON.  [JSON.parse] throws inside the
    [onmessage] handler and nothing catches it: the handler ends abruptly
    with the SyntaxError, having changed nothing. *)
Theorem ws_onmessage_unparsable_raises (w : World) :
  ws_onmessage (Throw SyntaxError) w = (w, Throw SyntaxError) /\
  isThrow (snd (ws_onmessage (Throw SyntaxError) w)) = true.
Proof. split; reflexivity. Qed.

(** *** Per-item refreshers on success *)

Lemma alter_as_insert {A : Type} (f : A -> A) (l : list A) (i : nat) (x : A) :
  l !! i = Some x -> alter f i l = <[i := f x]> l.
Proof.
  intros Hi. destruct (list_split_at l i x Hi) as (l1 & l2 & _ & _ & Hins & Halt).
  rewrite Halt, Hins. reflexivity.
Qed.

Lemma alter_twice_as_insert {A : Type} (f g : A -> A) (l : list A) (i : nat) (x : A) :
  l !! i = Some x -> alter g i (alter f i l) = <[i := g (f x)]> l.
Proof.
  revert i. induction l as [|a l IH]; intros [|i] Hi; simpl in Hi; try discriminate.
  - injection Hi as ->. reflexivity.
  - simpl. f_equal. apply IH, Hi.
Qed.

Lemma trade_status_success_step
    (w : World) (i : nat) (row : TradeRow) (old : Element)
    (data : JSON) (success : option JSON) (status : string) :
  trade_rows (document w) !! i = Some row ->
  status_badge row = Some old ->
  getProp data "success" = Normal success ->
  truthy success = true ->
  getProp data "status" = Normal (Some (JStr status)) ->
  trade_rows (document (fst (settleChain (TradeStatusChain i) (JsonData data) w)))
  = <[i := mkTradeRow (data_trade_id row)
             (Some (mkElement status ("badge status-badge bg-" ++ getStatusClass status)))]>
      (trade_rows (document w)) /\
  console (fst (settleChain (TradeStatusChain i) (JsonData data) w)) = console w.
Proof.
  intros Hrow Hbadge Hsuccess Htruthy Hstatus. open_world w.
  unfold settleChain, settle, catch, updateTradeStatus_then, bind, lift, get.
  rewrite Hsuccess, Htruthy. simpl. rewrite Hrow. simpl. rewrite Hbadge, Hstatus.
  simpl. repeat split.
  rewrite (alter_twice_as_insert _ _ _ _ _ Hrow).
  unfold onBadge. rewrite Hbadge. reflexivity.
Qed.

(** X1.  A trade-status response with a truthy success field and a string
    status, for a row that has a badge: the badge shows the status as
    received, its class is "badge status-badge bg-" followed by the class
    [getStatusClass] gives the status, the other rows are as they were,
    nothing is logged and nothing is raised. *)
Theorem trade_status_success_display
    (w : World) (i : nat) (row : TradeRow) (old : Element)
    (data : JSON) (success : option JSON) (status : string) :
  trade_rows (document w) !! i = Some row ->
  status_badge row = Some old ->
  getProp data "success" = Normal success ->
  truthy success = true ->
  getProp data "status" = Normal (Some (JStr status)) ->
  let w' := fst (settleChain (TradeStatusChain i) (JsonData data) w) in
  trade_rows (document w')
  = <[i := mkTradeRow (data_trade_id row)
             (Some (mkElement status ("badge status-badge bg-" ++ getStatusClass status)))]>
      (trade_rows (document w)) /\
  console w' = console w /\
  snd (settleChain (TradeStatusChain i) (JsonData data) w) = Normal tt.
Proof.
  intros Hrow Hbadge Hsuccess Htruthy Hstatus w'. subst w'.
  destruct (trade_status_success_step w i row old data success status
              Hrow Hbadge Hsuccess Htruthy Hstatus) as [Hrows Hconsole].
  repeat split; [exact Hrows | exact Hconsole |].
  open_world w.
  unfold settleChain, settle, catch, updateTradeStatus_then, bind, lift, get.
  rewrite Hsuccess, Htruthy. simpl. rewrite Hrow. simpl. rewrite Hbadge, Hstatus.
  reflexivity.
Qed.

(** X2.  The same response in two other situations.  For a row without a
    badge nothing at all changes.  With a status that is no string but has
    a text (a number, say), the badge gets that text and keeps its class,
    and the failure to classify it is logged, not raised. *)
Theorem trade_status_success_edges
    (w : World) (i : nat) (data : JSON) (success : option JSON) :
  getProp data "success" = Normal success ->
  truthy success = true ->
  (sinkElement (TradeBadge i) (document w) = None ->
   settleChain (TradeStatusChain i) (JsonData data) w = (w, Normal tt)) /\
  (forall (row : TradeRow) (old : Element) (status : option JSON) (text : string),
     trade_rows (document w) !! i = Some row ->
     status_badge row = Some old ->
     getProp data "status" = Normal status ->
     (forall s : string, status <> Some (JStr s)) ->
     toTextContent status = Normal text ->
     let w' := fst (settleChain (TradeStatusChain i) (JsonData data) w) in
     trade_rows (document w')
     = <[i := mkTradeRow (data_trade_id row) (Some (mkElement text (className old)))]>
         (trade_rows (document w)) /\
     console w' = (console w ++ ["Status update failed:"])%list /\
     snd (settleChain (TradeStatusChain i) (JsonData data) w) = Normal tt).
Proof.
  intros Hsuccess Htruthy. split.
  - intros Hnone.
    unfold settleChain, settle, catch, updateTradeStatus_then, bind, lift, get.
    rewrite Hsuccess. cbv beta iota. rewrite Htruthy. cbv beta iota.
    rewrite Hnone. reflexivity.
  - intros row old status text Hrow Hbadge Hstatus Hnostring Htext w'. subst w'.
    open_world w.
    unfold settleChain, settle, catch, updateTradeStatus_then, bind, lift, get.
    rewrite Hsuccess, Htruthy. simpl. rewrite Hrow. simpl. rewrite Hbadge, Hstatus.
    simpl. rewrite Htext. simpl.
    assert (getStatusClassOf status = Throw TypeError) as ->.
    { destruct status as [[]|]; try reflexivity. exfalso. eapply Hnostring. reflexivity. }
    simpl. repeat split.
    rewrite (alter_as_insert _ _ _ _ Hrow).
    unfold onBadge. rewrite Hbadge. reflexivity.
Qed.

(** X3.  A balance response with a truthy success field: a numeric balance
    is shown as a dollar sign followed by the number with two decimals, in
    the element the request came from, whose attributes and class stay; a
    balance that is missing or is no number changes no element, and the
    failure is logged, not raised. *)
Theorem account_balance_success_display
    (w : World) (i : nat) (element : BalanceElement)
    (data : JSON) (success balance : option JSON) :
  account_balances (document w) !! i = Some element ->
  getProp data "success" = Normal success ->
  truthy success = true ->
  getProp data "balance" = Normal balance ->
  let w' := fst (settleChain (AccountBalanceChain i) (JsonData data) w) in
  snd (settleChain (AccountBalanceChain i) (JsonData data) w) = Normal tt /\
  (forall n : number,
     balance = Some (JNum n) ->
     account_balances (document w')
     = <[i := mkBalanceElement (data_account_id element) (data_account_type element)
                (mkElement ("$" ++ Number_toFixed2 n)
                           (className (balance_element element)))]>
         (account_balances (document w)) /\
     console w' = console w) /\
  ((forall n : number, balance <> Some (JNum n)) ->
   document w' = document w /\
   journal w' = journal w /\
   console w' = (console w ++ ["Balance update failed:"])%list).
Proof.
  intros Hel Hsuccess Htruthy Hbalance w'. subst w'. open_world w.
  unfold settleChain, settle, catch, updateAccountBalances_then, bind, lift, get.
  rewrite Hsuccess, Htruthy. simpl. rewrite Hbalance. simpl.
  split; [|split].
  - destruct balance as [[]|]; reflexivity.
  - intros n ->. simpl. split; [|reflexivity].
    rewrite (alter_as_insert _ _ _ _ Hel). reflexivity.
  - intros Hnot.
    assert (toFixed2 balance = Throw TypeError) as ->.
    { destruct balance as [[]|]; try reflexivity. exfalso. eapply Hnot. reflexivity. }
    repeat split.
Qed.

(** *** What a refresh leaves alone *)

Lemma sinkElement_onSink_other (s s' : Sink) (g : Element -> Element) (d : Document) :
  s <> s' -> sinkElement s (onSink s' g d) = sinkElement s d.
Proof.
  intros Hne. destruct s, s'; simpl; try reflexivity; try congruence.
  - rewrite list_lookup_alter_ne; [reflexivity | congruence].
  - rewrite list_lookup_alter_ne; [reflexivity | congruence].
Qed.

Lemma keeps_other_store (s s' : Sink) (f : Field) (v : string) :
  s <> s' ->
  keeps (fun w => (sinkElement s (document w), container (document w))) (store s' f v).
Proof.
  intros Hne. apply keeps_modify. intros [win d con tim inf soc clock cr jr unc]. simpl.
  rewrite (sinkElement_onSink_other s s' _ d Hne). destruct s'; reflexivity.
Qed.

Lemma keeps_other_console_log (s : Sink) (line : string) :
  keeps (fun w => (sinkElement s (document w), container (document w))) (console_log line).
Proof. apply keeps_modify. intros []. reflexivity. Qed.

Lemma keeps_beyond_store (s : Sink) (f : Field) (v : string) :
  keeps beyondPage (store s f v).
Proof. apply keeps_modify. intros []. reflexivity. Qed.

Lemma keeps_beyond_console_log (line : string) : keeps beyondPage (console_log line).
Proof. apply keeps_modify. intros []. reflexivity. Qed.

#[local] Hint Resolve keeps_other_console_log keeps_beyond_store
  keeps_beyond_console_log : frame.

Ltac unfold_chains :=
  unfold settleChain, settle, updateTradeStatus_then, updateTradeStatus_catch,
    updateAccountBalances_then, updateAccountBalances_catch, updateCopierStatus_then,
    updateCopierStatus_catch, updateApiStatus_then, updateApiStatus_catch,
    apiStatusCase.

Ltac frame_by tac :=
  repeat first
    [ solve [auto with frame]
    | solve [tac]
    | apply keeps_bind; [|intros ?]
    | apply keeps_catch; [|intros ?]
    | match goal with
      | |- keeps _ (match ?x with _ => _ end) => destruct x
      end ].

(** X4.  Each refresh assigns only to the sinks of its own target: the
    chain of trade row [i] leaves every other badge, every balance and the
    four singleton elements as they were, and likewise for the other three
    chains; none touches the notifications.  This holds for every way the
    request can end. *)
Theorem refresh_writes_own_sinks (c : Chain) (o : FetchOutcome) (w : World) (s : Sink) :
  owns c s = false ->
  sinkElement s (document (fst (settleChain c o w))) = sinkElement s (document w) /\
  container (document (fst (settleChain c o w))) = container (document w).
Proof.
  intros Hown.
  assert (keeps (fun w => (sinkElement s (document w), container (document w)))
                (settleChain c o)) as Hkeeps.
  { destruct c, o; unfold_chains;
      frame_by ltac:(apply keeps_other_store; intros ->; simpl in Hown;
                     rewrite ?Nat.eqb_refl in Hown; discriminate). }
  specialize (Hkeeps w). simpl in Hkeeps. injection Hkeeps as H1 H2. auto.
Qed.

Lemma catch_all_normal (m : M unit) (h : Error -> M unit) (w : World) :
  (forall e w0, snd (h e w0) = Normal tt) -> snd (catch m h w) = Normal tt.
Proof.
  intros Hh. unfold catch. destruct (m w) as [w1 [[]|e]]; [reflexivity | apply Hh].
Qed.

Lemma refresh_catch_normal (c : Chain) (e : Error) (w : World) :
  snd (match c with
       | TradeStatusChain _ => updateTradeStatus_catch e
       | AccountBalanceChain _ => updateAccountBalances_catch e
       | CopierStatusChain => updateCopierStatus_catch e
       | ApiStatusChain => updateApiStatus_catch e
       end w) = Normal tt.
Proof.
  destruct c; try reflexivity;
    destruct w as [win [rows bals cs cd as_ ad cont] con tim inf soc clock cr jr unc];
    unfold updateCopierStatus_catch, updateApiStatus_catch, bind, get, console_log,
      modify; simpl.
  - destruct cs, cd; reflexivity.
  - destruct as_, ad; reflexivity.
Qed.

Lemma settleChain_normal (c : Chain) (o : FetchOutcome) (w : World) :
  snd (settleChain c o w) = Normal tt.
Proof.
  destruct c, o; unfold settleChain, settle;
    first [ apply catch_all_normal; intros e w0 | idtac ];
    first [ apply (refresh_catch_normal (TradeStatusChain row))
          | apply (refresh_catch_normal (AccountBalanceChain i))
          | apply (refresh_catch_normal CopierStatusChain)
          | apply (refresh_catch_normal ApiStatusChain) ].
Qed.

Lemma keeps_beyond_settleChain (c : Chain) (o : FetchOutcome) :
  keeps beyondPage (settleChain c o).
Proof. destruct c, o; unfold_chains; frame. Qed.

(** X5.  However a request ends and whatever the body holds, the chain of a
    refresh raises nothing, and it changes nothing but the page, the
    journal of assignments and the console: it schedules no timer, issues
    no request (a failed refresh is not retried before the next tick) and
    opens no socket. *)
Theorem refresh_is_contained (c : Chain) (o : FetchOutcome) (w : World) :
  snd (settleChain c o w) = Normal tt /\
  beyondPage (fst (settleChain c o w)) = beyondPage w.
Proof.
  split; [apply settleChain_normal | apply keeps_beyond_settleChain].
Qed.

(** *** What the event loop never changes *)

Lemma map_alter_same {A B : Type} (key : A -> B) (g : A -> A) (i : nat) (l : list A) :
  (forall x, key (g x) = key x) -> map key (alter g i l) = map key l.
Proof.
  intros Hkey. revert i. induction l as [|a l IH]; intros [|i]; simpl; try reflexivity.
  - rewrite Hkey. reflexivity.
  - f_equal. apply IH.
Qed.

Lemma shape_onSink (s : Sink) (g : Element -> Element) (d : Document) :
  shape (onSink s g d) = shape d.
Proof.
  destruct d as [rows bals cs cd as_ ad cont]. destruct s; unfold shape; simpl.
  - rewrite map_alter_same; [reflexivity|].
    intros [id [b|]]; reflexivity.
  - rewrite map_alter_same; [reflexivity|]. intros []; reflexivity.
  - destruct cs; reflexivity.
  - destruct cd; reflexivity.
  - destruct as_; reflexivity.
  - destruct ad; reflexivity.
Qed.

Lemma shape_onContainer (g : list Alert -> list Alert) (d : Document) :
  shape (onContainer g d) = shape d.
Proof. destruct d as [rows bals cs cd as_ ad [cont|]]; reflexivity. Qed.

Lemma keeps_fixed_store (s : Sink) (f : Field) (v : string) : keeps fixed (store s f v).
Proof.
  apply keeps_modify. intros [win d con tim inf soc clock cr jr unc].
  unfold fixed. simpl. rewrite shape_onSink. reflexivity.
Qed.

Lemma keeps_fixed_console_log (line : string) : keeps fixed (console_log line).
Proof. apply keeps_modify. intros []. reflexivity. Qed.

Lemma keeps_fixed_closeAlert (id : nat) : keeps fixed (closeAlert id).
Proof.
  apply keeps_modify. intros [win d con tim inf soc clock cr jr unc].
  unfold fixed. simpl. rewrite shape_onContainer. reflexivity.
Qed.

Lemma keeps_fixed_showAlert (type message : string) : keeps fixed (showAlert type message).
Proof.
  intros w. unfold showAlert, bind, get, modify, setTimeout, lift.
  destruct w as [win d con tim inf soc clock cr jr unc]; simpl.
  destruct (container d) eqn:Hc; simpl; [|reflexivity].
  unfold fixed, pollTimers; simpl.
  rewrite shape_onContainer, List.filter_app. simpl. rewrite app_nil_r. reflexivity.
Qed.

Lemma keeps_fixed_initWebSocket : keeps fixed initWebSocket.
Proof.
  intros [win d con tim inf soc clock cr jr unc].
  unfold initWebSocket, bind, get, new_WebSocket, modify, ret. simpl.
  destruct (WebSocket_defined win); reflexivity.
Qed.

Lemma keeps_fixed_pollTick : keeps fixed pollTick.
Proof. intros w. rewrite pollTick_requests. destruct w; reflexivity. Qed.

Lemma keeps_fixed_ws_onclose : keeps fixed ws_onclose.
Proof.
  intros w. rewrite ws_onclose_result. destruct w. unfold fixed, pollTimers. simpl.
  rewrite List.filter_app. simpl. rewrite app_nil_r. reflexivity.
Qed.

#[local] Hint Resolve keeps_fixed_store keeps_fixed_console_log keeps_fixed_closeAlert
  keeps_fixed_showAlert keeps_fixed_initWebSocket keeps_fixed_pollTick
  keeps_fixed_ws_onclose : frame.

Lemma keeps_fixed_settleChain (c : Chain) (o : FetchOutcome) : keeps fixed (settleChain c o).
Proof. destruct c, o; unfold_chains; frame. Qed.

Lemma keeps_fixed_ws_onmessage (parsed : Completion JSON) :
  keeps fixed (ws_onmessage parsed).
Proof. unfold ws_onmessage, handleWebSocketMessage. frame. Qed.

Lemma fixed_with_uncaught (u : list Error -> list Error) (w : World) :
  fixed (with_uncaught u w) = fixed w.
Proof. destruct w; reflexivity. Qed.

Lemma fixed_handler (m : M unit) (w : World) :
  keeps fixed m -> fixed (runHandler m w) = fixed w.
Proof. intros Hm. apply keeps_runHandler; [exact Hm | apply fixed_with_uncaught]. Qed.

Lemma fixed_rearm (w : World) (j : nat) (t : Timer) :
  timers w !! j = Some t ->
  fixed (with_timers
           match timer_period t with
           | Some p => <[j := mkTimer (timer_callback t) (now w + p) (Some p)]>
           | None => delete j
           end w)
  = fixed w.
Proof.
  intros Hj. destruct (list_split_at _ _ _ Hj) as (l1 & l2 & Hl & Hdel & Hins & _).
  destruct w as [win d con tim inf soc clock cr jr unc]. simpl in *. subst tim.
  unfold fixed, pollTimers. simpl. f_equal.
  destruct t as [cb due [p|]]; simpl.
  - rewrite Hins, !List.filter_app, !length_app. simpl.
    unfold isPoll. simpl. destruct cb; reflexivity.
  - rewrite Hdel, !List.filter_app, !length_app. simpl.
    unfold isPoll at 3. simpl. destruct cb; reflexivity.
Qed.

Lemma step_fixed (ev : Event) (w w' : World) :
  step ev w = Some w' -> fixed w' = fixed w.
Proof.
  intros Hstep. destruct ev as [ms|j|j o|i|i parsed|i|i]; simpl in Hstep.
  - destruct (0 <=? ms); [|discriminate]. injection Hstep as <-. destruct w; reflexivity.
  - destruct (timers w !! j) as [t|] eqn:Hj; [|discriminate].
    destruct (timer_due t <=? now w); [|discriminate]. injection Hstep as <-.
    rewrite fixed_handler; [apply (fixed_rearm w j t Hj)|].
    destruct (timer_callback t); simpl; auto with frame.
  - destruct (inflight w !! j) as [r|]; [|discriminate]. injection Hstep as <-.
    rewrite fixed_handler; [destruct w; reflexivity | apply keeps_fixed_settleChain].
  - destruct (readyState <$> sockets w !! i) as [[]|]; try discriminate.
    injection Hstep as <-.
    rewrite fixed_handler; [destruct w; reflexivity | unfold ws_onopen; auto with frame].
  - destruct (readyState <$> sockets w !! i) as [[]|]; try discriminate.
    injection Hstep as <-. apply fixed_handler, keeps_fixed_ws_onmessage.
  - destruct (readyState <$> sockets w !! i) as [[]|]; try discriminate;
      injection Hstep as <-; apply fixed_handler; unfold ws_onerror; auto with frame.
  - destruct (readyState <$> sockets w !! i) as [[]|]; try discriminate;
      injection Hstep as <-;
      (rewrite fixed_handler; [destruct w; reflexivity | auto with frame]).
Qed.

Lemma run_fixed (evs : list Event) (w w' : World) :
  run evs w = Some w' -> fixed w' = fixed w.
Proof.
  revert w. induction evs as [|ev rest IH]; intros w Hrun; simpl in Hrun.
  - injection Hrun as <-. reflexivity.
  - destruct (step ev w) as [w1|] eqn:Hstep; [|discriminate].
    rewrite (IH w1 Hrun). apply (step_fixed ev w w1 Hstep).
Qed.




(** X7.  Nothing the event loop runs stops or doubles the poll: after any
    sequence of events (failed requests, socket errors, exceptions in
    handlers included) the page has as many repeating poll timers as
    before. *)
Theorem poll_timers_are_kept (evs : list Event) (w w' : World) :
  run evs w = Some w' -> length (pollTimers w') = length (pollTimers w).
Proof.
  intros Hrun. pose proof (run_fixed evs w w' Hrun) as Hfixed.
  exact (f_equal snd Hfixed).
Qed.

(** *** Refreshes of one target, one after the other *)

Lemma runHandler_normal (m : M unit) (w : World) :
  snd (m w) = Normal tt -> runHandler m w = fst (m w).
Proof. unfold runHandler. destruct (m w) as [w1 [[]|e]]; simpl; [reflexivity | discriminate]. Qed.

Lemma settleAll_app (c : Chain) (first then_ : list FetchOutcome) (w : World) :
  settleAll c (first ++ then_) w = settleAll c then_ (settleAll c first w).
Proof. unfold settleAll. apply fold_left_app. Qed.

Lemma settleAll_fixed (c : Chain) (outcomes : list FetchOutcome) (w : World) :
  fixed (settleAll c outcomes w) = fixed w.
Proof.
  revert w. unfold settleAll. induction outcomes as [|o rest IH]; intros w; simpl.
  - reflexivity.
  - rewrite IH. apply fixed_handler, keeps_fixed_settleChain.
Qed.

Lemma settleAll_failed_document (c : Chain) (outcomes : list FetchOutcome) (w : World) :
  perItem c = true -> forallb refreshFailed outcomes = true ->
  document (settleAll c outcomes w) = document w.
Proof.
  intros Hc. revert w. unfold settleAll.
  induction outcomes as [|o rest IH]; intros w Hall; simpl; [reflexivity|].
  apply andb_true_iff in Hall as [Ho Hrest].
  destruct (failed_refresh_step c o w Hc Ho) as (Hn & Hd & _).
  rewrite (IH _ Hrest), (runHandler_normal _ _ Hn). exact Hd.
Qed.

Lemma same_keys_lookup {A B : Type} (key : A -> B) (l l' : list A) (i : nat) (x : A) :
  map key l' = map key l -> l !! i = Some x ->
  exists y : A, l' !! i = Some y /\ key y = key x.
Proof.
  intros Hmap Hi.
  assert (map key l' !! i = Some (key x)) as Hk
    by (rewrite Hmap; apply (list_lookup_fmap_Some_2 key); exact Hi).
  apply list_lookup_fmap_Some_1 in Hk as (y & Hy & Hl). exists y. auto.
Qed.

(** X8.  Whatever happened to the earlier refreshes of a trade row that has
    a badge, once a response with a truthy success field and a string
    status has been applied the badge shows that response, and it still
    does after any number of later refreshes that fail: the badge always
    shows the last response that succeeded. *)
Theorem trade_badge_shows_last_success
    (w : World) (i : nat) (row : TradeRow) (old : Element)
    (history trailing : list FetchOutcome)
    (data : JSON) (success : option JSON) (status : string) :
  trade_rows (document w) !! i = Some row ->
  status_badge row = Some old ->
  getProp data "success" = Normal success ->
  truthy success = true ->
  getProp data "status" = Normal (Some (JStr status)) ->
  forallb refreshFailed trailing = true ->
  sinkElement (TradeBadge i)
    (document (settleAll (TradeStatusChain i) (history ++ JsonData data :: trailing) w))
  = Some (mkElement status ("badge status-badge bg-" ++ getStatusClass status)).
Proof.
  intros Hrow Hbadge Hsuccess Htruthy Hstatus Htrailing.
  rewrite settleAll_app.
  set (w1 := settleAll (TradeStatusChain i) history w).
  change (settleAll (TradeStatusChain i) (JsonData data :: trailing) w1)
    with (settleAll (TradeStatusChain i) trailing
            (runHandler (settleChain (TradeStatusChain i) (JsonData data)) w1)).
  rewrite settleAll_failed_document; [|reflexivity | exact Htrailing].
  rewrite (runHandler_normal _ _ (settleChain_normal _ _ _)).
  pose proof (f_equal (fun x => fst (fst (fst (snd (fst x)))))
                (settleAll_fixed (TradeStatusChain i) history w)) as Hshape.
  simpl in Hshape. fold w1 in Hshape.
  destruct (same_keys_lookup _ _ _ i row Hshape Hrow) as (row1 & Hrow1 & Hkey).
  injection Hkey as _ Hpresent. rewrite Hbadge in Hpresent.
  destruct (status_badge row1) as [old1|] eqn:Hbadge1; [|discriminate].
  destruct (trade_status_success_step w1 i row1 old1 data success status
              Hrow1 Hbadge1 Hsuccess Htruthy Hstatus) as [Hrows _].
  unfold sinkElement. rewrite Hrows.
  rewrite list_lookup_insert_eq; [reflexivity|].
  apply (lookup_lt_Some _ _ _ Hrow1).
Qed.

(** *** Exceptions in the event loop *)

Lemma uncaught_runHandler (m : M unit) (w : World) :
  snd (m w) = Normal tt -> uncaught (fst (m w)) = uncaught w ->
  uncaught (runHandler m w) = uncaught w.
Proof. intros Hn Hu. rewrite (runHandler_normal _ _ Hn). exact Hu. Qed.

Lemma runCallback_quiet (cb : Callback) (w : World) :
  snd (runCallback cb w) = Normal tt /\ uncaught (fst (runCallback cb w)) = uncaught w.
Proof.
  destruct cb; simpl.
  - rewrite pollTick_requests. destruct w; split; reflexivity.
  - destruct w as [[p h ws] d con tim inf soc clock cr jr unc].
    unfold initWebSocket, bind, get, new_WebSocket, modify, ret. simpl.
    destruct ws; split; reflexivity.
  - destruct w; split; reflexivity.
Qed.

(** X9.  The only handler of the event loop that can let an exception out
    is the one for a message of the socket: a turn for any other event
    (time passing, a timer, the end of a request, the socket opening,
    failing or closing) adds no uncaught exception. *)
Theorem only_messages_raise (ev : Event) (w w' : World) :
  isMessage ev = false ->
  step ev w = Some w' ->
  uncaught w' = uncaught w.
Proof.
  intros Hev Hstep. destruct ev as [ms|j|j o|i|i parsed|i|i]; try discriminate;
    simpl in Hstep.
  - destruct (0 <=? ms); [|discriminate]. injection Hstep as <-. destruct w; reflexivity.
  - destruct (timers w !! j) as [t|]; [|discriminate].
    destruct (timer_due t <=? now w); [|discriminate]. injection Hstep as <-.
    destruct (runCallback_quiet (timer_callback t)
                (with_timers
                   match timer_period t with
                   | Some p => <[j := mkTimer (timer_callback t) (now w + p) (Some p)]>
                   | None => delete j
                   end w)) as [Hn Hu].
    rewrite (uncaught_runHandler _ _ Hn Hu). destruct w; reflexivity.
  - destruct (inflight w !! j) as [r|]; [|discriminate]. injection Hstep as <-.
    rewrite uncaught_runHandler.
    + destruct w; reflexivity.
    + apply settleChain_normal.
    + exact (f_equal snd (keeps_beyond_settleChain _ _ _)).
  - destruct (readyState <$> sockets w !! i) as [[]|]; try discriminate.
    injection Hstep as <-. destruct w; reflexivity.
  - destruct (readyState <$> sockets w !! i) as [[]|]; try discriminate;
      injection Hstep as <-; destruct w; reflexivity.
  - destruct (readyState <$> sockets w !! i) as [[]|]; try discriminate;
      injection Hstep as <-; destruct w; reflexivity.
Qed.

(** *** Notifications *)

Lemma filter_other_ids (id : nat) (l : list Alert) :
  Forall (fun a => alert_id a <> id) l ->
  List.filter (fun a => negb (Nat.eqb (alert_id a) id)) l = l.
Proof.
  induction 1 as [|a l Ha _ IH]; simpl; [reflexivity|].
  apply Nat.eqb_neq in Ha. rewrite Ha, IH. reflexivity.
Qed.

Lemma fresh_other_ids (w : World) :
  alerts_fresh w -> Forall (fun a => alert_id a <> created w) (alerts w).
Proof.
  intros [_ Hlt]. eapply Forall_impl; [exact Hlt|]. simpl. intros a Ha. lia.
Qed.





(** X10.  On a page that has the notification area and whose notifications
    are all distinct elements built before: [showAlert] puts the new
    notification on top of the existing ones, which stay, and schedules
    its dismissal, once, 5 seconds later; that dismissal takes away the new
    notification and no other, giving back the page as it was before the
    call. *)
Theorem notification_is_dismissed_alone
    (type message : string) (w : World) (existing : list Alert) :
  container (document w) = Some existing ->
  alerts_fresh w ->
  let shown :=
    mkAlert (created w)
            ("alert alert-" ++ (if String.eqb type "error" then "danger" else type)
               ++ " alert-dismissible fade show")
            (alertHTML message) in
  let w1 := fst (showAlert type message w) in
  alerts w1 = shown :: existing /\
  timers w1 = (timers w ++ [mkTimer (Cb_closeAlert (created w)) (now w + 5 * second) None])%list /\
  document (fst (runCallback (Cb_closeAlert (created w)) w1)) = document w.
Proof.
  intros Hc Hfresh shown w1. subst shown w1.
  pose proof (fresh_other_ids w Hfresh) as Hother.
  destruct w as [win [rows bals cs cd as_ ad cont] con tim inf soc clock cr jr unc].
  unfold alerts in *. simpl in *. subst cont. simpl in Hother.
  unfold showAlert, closeAlert, bind, get, modify, setTimeout, lift. simpl.
  repeat split. unfold onContainer. simpl. rewrite Nat.eqb_refl. simpl.
  rewrite (filter_other_ids cr existing Hother). reflexivity.
Qed.

(** X11.  On a page without a [.container] element [showAlert] raises a
    TypeError before it shows or schedules anything; so a socket message of
    a known type is lost there with an exception, leaving the page, the
    timers and the console as they were. *)
Theorem notification_needs_container
    (members : list (string * JSON)) (t : string) (w : World) :
  container (document w) = None ->
  ownProperty "type" members = Some (JStr t) ->
  knownType t = true ->
  (forall key : string, isThrow (template (ownProperty key members)) = false) ->
  (forall type message : string,
     showAlert type message w = (with_created S w, Throw TypeError)) /\
  handleWebSocketMessage (JObj members) w = (with_created S w, Throw TypeError).
Proof.
  intros Hc Htype Hknown Htexts. split.
  - intros type message. open_world w. reflexivity.
  - unfold handleWebSocketMessage, bind, lift. simpl. rewrite Htype.
    unfold knownType in Hknown.
    pose proof (Htexts "symbol") as Hsymbol. pose proof (Htexts "side") as Hside.
    pose proof (Htexts "followers") as Hfollowers. pose proof (Htexts "error") as Herror.
    open_world w.
    destruct (String.eqb t "new_trade").
    { destruct (template (ownProperty "symbol" members)); [|discriminate].
      destruct (template (ownProperty "side" members)); [|discriminate].
      reflexivity. }
    destruct (String.eqb t "trade_copied").
    { destruct (template (ownProperty "followers" members)); [|discriminate].
      reflexivity. }
    destruct (String.eqb t "trade_failed"); [|discriminate].
    destruct (template (ownProperty "error" members)); [|discriminate].
    reflexivity.
Qed.






Lemma keeps_alerts_store (s : Sink) (f : Field) (v : string) :
  keeps (fun w => (container (document w), created w)) (store s f v).
Proof.
  apply keeps_modify. intros [win d con tim inf soc clock cr jr unc]. simpl.
  destruct s; reflexivity.
Qed.

Lemma keeps_alerts_console_log (line : string) :
  keeps (fun w => (container (document w), created w)) (console_log line).
Proof. apply keeps_modify. intros []. reflexivity. Qed.

#[local] Hint Resolve keeps_alerts_store keeps_alerts_console_log : frame.







(** *** The form check *)


(** X16.  On a page that has the notification area, a form that is not let
    through gets the answer false and exactly one danger notification on
    top of the others: 'API Key and Secret are required' when the key or
    the secret is empty (also when the key is short as well), 'API Key
    appears to be invalid' when both are given and the key is shorter than
    ten characters. *)
Theorem validateApiCredentials_rejects
    (form : CredentialsForm) (key secret : string) (w : World) (existing : list Alert) :
  api_key_input form = Some key ->
  api_secret_input form = Some secret ->
  container (document w) = Some existing ->
  credentialsValid key secret = false ->
  snd (validateApiCredentials form w) = Normal false /\
  alerts (fst (validateApiCredentials form w))
  = mkAlert (created w) "alert alert-danger alert-dismissible fade show"
            (alertHTML (credentialsComplaint key secret))
    :: existing.
Proof.
  intros Hkey Hsecret Hc Hinvalid.
  unfold validateApiCredentials, credentialsValid, credentialsComplaint, bind, lift,
    inputValue, ret in *.
  rewrite Hkey, Hsecret. cbv beta iota. rewrite Nat.ltb_antisym.
  remember (10 <=? String.length key)%nat as long eqn:Hlong. clear Hlong.
  open_world w. unfold alerts.
  destruct (String.eqb key ""), (String.eqb secret ""); simpl in *;
    try (split; reflexivity).
  subst long. split; reflexivity.
Qed.

(** X17.  Two ways the form check ends in an exception instead of an
    answer: a form without the api_key or the api_secret input raises a
    TypeError before anything is checked, and on a page without a
    [.container] element a form that is not let through raises the
    TypeError of [showAlert] instead of answering false. *)
Theorem validateApiCredentials_raises (form : CredentialsForm) (w : World) :
  (api_key_input form = None \/ api_secret_input form = None ->
   validateApiCredentials form w = (w, Throw TypeError)) /\
  (forall key secret : string,
     api_key_input form = Some key ->
     api_secret_input form = Some secret ->
     container (document w) = None ->
     credentialsValid key secret = false ->
     validateApiCredentials form w = (with_created S w, Throw TypeError)).
Proof.
  split.
  - unfold validateApiCredentials, bind, lift, inputValue.
    intros [Hnone | Hnone]; rewrite Hnone; [reflexivity|].
    destruct (api_key_input form); reflexivity.
  - intros key secret Hkey Hsecret Hc Hinvalid.
    unfold validateApiCredentials, credentialsValid, bind, lift, inputValue, ret in *.
    rewrite Hkey, Hsecret. cbv beta iota. rewrite Nat.ltb_antisym.
    remember (10 <=? String.length key)%nat as long eqn:Hlong. clear Hlong.
    open_world w.
    destruct (String.eqb key ""), (String.eqb secret ""); simpl in *;
      try reflexivity.
    subst long. reflexivity.
Qed.

(** *** One round of reconnection *)

Lemma lookup_appended {A : Type} (l : list A) (x : A) : (l ++ [x])%list !! length l = Some x.
Proof. induction l as [|a l IH]; simpl; [reflexivity | exact IH]. Qed.

Lemma delete_appended {A : Type} (l : list A) (x : A) : delete (length l) (l ++ [x])%list = l.
Proof. induction l as [|a l IH]; simpl; [reflexivity | f_equal; exact IH]. Qed.

(** X18.  One round of the reconnection loop.  After a socket that had not
    closed closes, the timer it scheduled cannot run before 5 seconds have
    passed; once they have, it runs, is used up, and [initWebSocket] opens
    one new socket, connecting to the same URL: wss when the page was
    loaded over https and ws otherwise, on the page's host, path /ws.
    Where the host has no WebSocket the timer runs and nothing is opened. *)
Theorem reconnection_round (w : World) (i : nat) (s : Socket) (ms : Z) :
  sockets w !! i = Some s ->
  isLive s = true ->
  let round := [SocketCloses i; Elapse ms; TimerFires (length (timers w))] in
  (0 <= ms < 5 * second -> run round w = None) /\
  (5 * second <= ms ->
   exists w' : World,
     run round w = Some w' /\
     timers w' = timers w /\
     sockets w'
     = (setReadyState i CLOSED (sockets w)
        ++ (if WebSocket_defined (window w)
            then [mkSocket (channelUrl (window w)) CONNECTING]
            else []))%list).
Proof.
  intros Hi Hlive round. subst round.
  assert (exists w1, step (SocketCloses i) w = Some w1 /\
            w1 = with_timers
                   (fun t => (t ++ [mkTimer Cb_initWebSocket (now w + 5 * second) None])%list)
                   (with_console (fun c => (c ++ ["WebSocket disconnected"])%list)
                      (with_sockets (setReadyState i CLOSED) w))) as (w1 & Hclose & Hw1).
  { unfold step. rewrite Hi. simpl. unfold isLive in Hlive.
    destruct (readyState s); try discriminate; eexists; (split; [reflexivity|]);
      unfold runHandler; rewrite ws_onclose_result; destruct w; reflexivity. }
  cbn [run]. rewrite Hclose. subst w1.
  destruct w as [[p h ws] d con tim inf soc clock cr jr unc]. simpl in *.
  split.
  - intros [Hlo Hhi]. apply Z.leb_le in Hlo. rewrite Hlo. simpl.
    rewrite lookup_appended. simpl.
    assert (((clock + 5 * second) <=? (ms + clock)) = false) as -> by (apply Z.leb_gt; lia).
    reflexivity.
  - intros Hms. assert ((0 <=? ms) = true) as -> by (apply Z.leb_le; unfold second in *; lia).
    simpl. rewrite lookup_appended. simpl.
    assert (((clock + 5 * second) <=? (ms + clock)) = true) as -> by (apply Z.leb_le; lia).
    unfold runHandler, initWebSocket, bind, get, new_WebSocket, modify, ret, channelUrl,
      with_timers.
    simpl. rewrite delete_appended.
    simpl. destruct ws; simpl; eexists; (split; [reflexivity|]); simpl;
      rewrite ?app_nil_r; split; reflexivity.
Qed.

(** *** The exported file *)

Lemma split_plain (c : ascii) (a : string) :
  occurrences c a = 0%nat -> String_split c a = [a].
Proof.
  induction a as [|x a IH]; simpl; [reflexivity|].
  destruct (Ascii.eqb x c); [discriminate|]. intros Ha. rewrite (IH Ha). reflexivity.
Qed.

Lemma split_at_separator (c : ascii) (a b : string) :
  occurrences c a = 0%nat ->
  String_split c (a ++ String c b) = a :: String_split c b.
Proof.
  induction a as [|x a IH]; simpl.
  - rewrite Ascii.eqb_refl. reflexivity.
  - destruct (Ascii.eqb x c); [discriminate|]. intros Ha. rewrite (IH Ha). reflexivity.
Qed.

Lemma split_concat (c : ascii) (parts : list string) :
  parts <> [] ->
  forallb (fun part => Nat.eqb (occurrences c part) 0) parts = true ->
  String_split c (String.concat (String c "") parts) = parts.
Proof.
  induction parts as [|a [|b rest] IH]; intros Hne Hall; [congruence | |].
  - simpl in *. apply andb_true_iff in Hall as [Ha _]. apply Nat.eqb_eq in Ha.
    apply split_plain, Ha.
  - change (String.concat (String c "") (a :: b :: rest))
      with (a ++ String c (String.concat (String c "") (b :: rest))).
    cbn [forallb] in Hall. apply andb_true_iff in Hall as [Ha Hrest].
    apply Nat.eqb_eq in Ha. rewrite (split_at_separator c a _ Ha).
    f_equal. apply IH; [discriminate | exact Hrest].
Qed.

Lemma occurrences_app (c : ascii) (a b : string) :
  occurrences c (a ++ b) = (occurrences c a + occurrences c b)%nat.
Proof. induction a as [|x a IH]; simpl; [reflexivity | rewrite IH; lia]. Qed.

Lemma occurrences_concat (c sep : ascii) (parts : list string) :
  occurrences c (String.concat (String sep "") parts)
  = (list_sum (map (occurrences c) parts)
     + (if Ascii.eqb sep c then 1 else 0) * (length parts - 1))%nat.
Proof.
  induction parts as [|a [|b rest] IH].
  - destruct (Ascii.eqb sep c); reflexivity.
  - simpl. lia.
  - change (String.concat (String sep "") (a :: b :: rest))
      with (a ++ String sep (String.concat (String sep "") (b :: rest))).
    rewrite occurrences_app. cbn [occurrences]. rewrite IH.
    cbn [map length]. unfold list_sum. cbn [fold_right].
    destruct (Ascii.eqb sep c); lia.
Qed.

Lemma split_length (c : ascii) (s : string) :
  length (String_split c s) = S (occurrences c s).
Proof.
  induction s as [|x s IH]; simpl; [reflexivity|].
  destruct (Ascii.eqb x c); simpl; [rewrite IH; reflexivity|].
  destruct (String_split c s); simpl in *; [discriminate | exact IH].
Qed.

Lemma plain_line (row : list string) :
  forallb plainCell row = true ->
  occurrences "010" (String.concat "," row) = 0%nat.
Proof.
  intros Hrow. rewrite (occurrences_concat "010" "," row). simpl.
  induction row as [|cell row IH]; [reflexivity|].
  cbn [forallb] in Hrow. apply andb_true_iff in Hrow as [Hcell Hrow].
  unfold plainCell in Hcell. apply andb_true_iff in Hcell as [_ Hnl].
  apply Nat.eqb_eq in Hnl. cbn [map] in *. unfold list_sum in *. cbn [fold_right] in *.
  specialize (IH Hrow). lia.
Qed.

(** X19.  The exported file can be read back when the table has at least
    one row, every row at least one cell, and no cell holds a comma or a
    line break: splitting the content at line breaks and each line at
    commas gives the rows and cells of the table.  Without a
    [.trades-table] element nothing is exported. *)
Theorem exportTradesToCSV_reads_back (rows : list (list string)) (iso : string) :
  plainTable rows = true ->
  exportTradesToCSV None iso = None /\
  exists file : Download,
    exportTradesToCSV (Some rows) iso = Some file /\
    download_name file = "trades_" ++ hd "" (String_split "T" iso) ++ ".csv" /\
    readCSV (download_content file) = rows.
Proof.
  intros Hplain. split; [reflexivity|]. eexists. split; [reflexivity|].
  split; [reflexivity|]. cbn [download_content]. unfold readCSV, newline.
  unfold plainTable in Hplain. apply andb_true_iff in Hplain as [Hne Hrows].
  rewrite split_concat.
  - rewrite map_map. clear Hne. induction rows as [|row rows IH]; [reflexivity|].
    cbn [forallb] in Hrows. apply andb_true_iff in Hrows as [Hrow Hrows].
    apply andb_true_iff in Hrow as [Hcells Hrow].
    cbn [map]. rewrite (IH Hrows). f_equal.
    apply split_concat.
    + intros ->. discriminate.
    + rewrite forallb_forall in *. intros cell Hin. specialize (Hrow cell Hin).
      unfold plainCell in Hrow. apply andb_true_iff in Hrow as [Hcomma _]. exact Hcomma.
  - intros Hmap. apply map_eq_nil in Hmap. subst rows. discriminate.
  - rewrite forallb_forall. intros line Hin. apply in_map_iff in Hin as (row & <- & Hin).
    rewrite forallb_forall in Hrows. specialize (Hrows row Hin).
    apply andb_true_iff in Hrows as [_ Hrow].
    apply Nat.eqb_eq, plain_line, Hrow.
Qed.

(** X20.  The export quotes nothing: a row of at least one cell becomes one
    line of its cells with commas between them, and reading that line back
    at the commas gives as many fields as the row has cells plus one for
    every comma inside a cell. *)
Theorem exportTradesToCSV_quotes_nothing (row : list string) (iso : string) :
  row <> [] ->
  exists file : Download,
    exportTradesToCSV (Some [row]) iso = Some file /\
    download_content file = String.concat "," row /\
    length (String_split "," (download_content file))
    = (length row + list_sum (map (occurrences ",") row))%nat.
Proof.
  intros Hne. eexists. split; [reflexivity|]. split; [reflexivity|].
  cbn [download_content map String.concat].
  rewrite split_length, (occurrences_concat "," "," row). simpl.
  destruct row; [congruence|]. simpl. lia.
Qed.

End Properties.

(** ** The properties on the sample page *)

#[local] Existing Instance IntegerHost.

Lemma getStatusClass_table_witness :
  getStatusClass "ExEcUtEd" = "success" /\
  getStatusClass "PENDING" = "warning" /\
  getStatusClass "Failed" = "danger" /\
  getStatusClass "cancelleD" = "secondary" /\
  getStatusClass "in review" = "secondary" /\
  getStatusClass "Pending" = getStatusClass "pENDING".
Proof.
  split; [apply (proj1 (getStatusClass_table "ExEcUtEd")); reflexivity|].
  split; [apply (proj1 (proj2 (getStatusClass_table "PENDING"))); reflexivity|].
  split; [apply (proj1 (proj2 (proj2 (getStatusClass_table "Failed")))); reflexivity|].
  split; [apply (proj1 (proj2 (proj2 (proj2 (getStatusClass_table "cancelleD")))));
          reflexivity|].
  split; [apply (proj1 (proj2 (proj2 (proj2 (proj2 (getStatusClass_table "in review"))))));
          reflexivity|].
  apply (proj1 (proj2 (proj2 (proj2 (proj2 (proj2 (getStatusClass_table "Pending")))))));
    reflexivity.
Defined.

Lemma failed_per_item_refresh_keeps_view_witness :
  document
    (settleAll (TradeStatusChain 1)
       [ JsonData (JObj [("success", JBool false)]); FetchRejected; JsonRejected;
         JsonData (JObj [("status", JStr "executed")]); JsonData JNull ]
       (loaded dashboard))
  = dashboard.
Proof.
  apply (failed_per_item_refresh_keeps_view (TradeStatusChain 1)
           [ JsonData (JObj [("success", JBool false)]); FetchRejected; JsonRejected;
             JsonData (JObj [("status", JStr "executed")]); JsonData JNull ]
           (loaded dashboard)); reflexivity.
Defined.

Lemma copier_status_display_witness :
  copier_status
    (document (fst (settleChain CopierStatusChain
                      (JsonData (JObj [("running", JBool true)])) (loaded dashboard))))
  = Some (mkElement "Running" (badge "success")).
Proof.
  apply (proj1 (copier_status_display (loaded dashboard)
                  (mkElement "Checking..." "badge bg-secondary me-2")
                  (mkElement "" "text-muted")
                  (JObj [("running", JBool true)]) (Some (JBool true))
                  eq_refl eq_refl eq_refl)).
  reflexivity.
Defined.

Lemma singleton_refresh_writes_both_or_nothing_witness :
  document (fst (settleChain CopierStatusChain FetchRejected (loaded bare_page)))
  = bare_page /\
  document (fst (settleChain ApiStatusChain FetchRejected (loaded bare_page)))
  = bare_page.
Proof.
  split.
  - apply (proj1 (singleton_refresh_writes_both_or_nothing FetchRejected (loaded bare_page))).
    right. reflexivity.
  - apply (proj1 (proj2 (singleton_refresh_writes_both_or_nothing FetchRejected
                           (loaded bare_page)))).
    right. reflexivity.
Defined.

Lemma api_status_display_witness :
  api_status
    (document (fst (settleChain ApiStatusChain
                      (JsonData (JObj [("status", JStr "partial_connected");
                                       ("message", JStr "2 of 3 accounts connected")]))
                      (loaded dashboard))))
  = Some (mkElement "Partial" (badge "warning")) /\
  api_description
    (document (fst (settleChain ApiStatusChain
                      (JsonData (JObj [("status", JStr "partial_connected");
                                       ("message", JStr "2 of 3 accounts connected")]))
                      (loaded dashboard))))
  = Some (mkElement "2 of 3 accounts connected" "text-muted").
Proof.
  pose proof (api_status_display (loaded dashboard)
                (mkElement "Checking..." "badge bg-secondary me-2")
                (mkElement "" "text-muted")
                (JObj [("status", JStr "partial_connected");
                       ("message", JStr "2 of 3 accounts connected")])
                PartialConnected "2 of 3 accounts connected"
                eq_refl eq_refl eq_refl eq_refl) as (Hs & Hd & _).
  split; [exact Hs | exact Hd].
Defined.

(** C3, as the specification words it, fails for the category error: the
    description shows the fixed text, not the message of the response. *)
Lemma api_error_message_not_shown :
  textContent <$>
    api_description
      (document (fst (settleChain ApiStatusChain
                        (JsonData (JObj [("status", JStr "error");
                                         ("message", JStr "database unreachable")]))
                        (loaded dashboard))))
  <> Some "database unreachable".
Proof. vm_compute. discriminate. Qed.

Lemma singleton_failure_display_witness :
  copier_status
    (document (fst (settleChain CopierStatusChain
                      (JsonData (JObj [("success", JBool false)])) (loaded dashboard))))
  = Some (mkElement "Stopped" (badge "danger")) /\
  document (fst (settleChain ApiStatusChain
                   (JsonData (JObj [("success", JBool false)])) (loaded dashboard)))
  = dashboard /\
  api_status
    (document (fst (settleChain ApiStatusChain
                      (JsonData (JObj [("status", JStr "error")])) (loaded dashboard))))
  = Some (mkElement "Error" (badge "warning")).
Proof.
  pose proof (singleton_failure_display (loaded dashboard)
                (mkElement "Checking..." "badge bg-secondary me-2")
                (mkElement "" "text-muted")
                (mkElement "Checking..." "badge bg-secondary me-2")
                (mkElement "" "text-muted")
                [("success", JBool false)]
                eq_refl eq_refl eq_refl eq_refl) as (_ & Hstopped & _ & _ & Hnothing).
  pose proof (singleton_failure_display (loaded dashboard)
                (mkElement "Checking..." "badge bg-secondary me-2")
                (mkElement "" "text-muted")
                (mkElement "Checking..." "badge bg-secondary me-2")
                (mkElement "" "text-muted")
                [("status", JStr "error")]
                eq_refl eq_refl eq_refl eq_refl) as (_ & _ & _ & Herror & _).
  split; [apply Hstopped; reflexivity|].
  split; [apply Hnothing; intros []; discriminate|].
  apply Herror. reflexivity.
Defined.

(** C5, as the specification words it, fails: a copier response that only
    says success false shows 'Stopped', not 'Error'. *)
Lemma copier_logical_failure_shows_stopped :
  textContent <$>
    copier_status
      (document (fst (settleChain CopierStatusChain
                        (JsonData (JObj [("success", JBool false)])) (loaded dashboard))))
  <> Some "Error".
Proof. vm_compute. discriminate. Qed.

Lemma reconnection_policy_witness :
  match run reconnecting (fst (initWebSocket (loaded dashboard))) with
  | Some w =>
      (length (reconnectTimers w) <= 1)%nat /\
      (length (liveSockets w) + length (reconnectTimers w) <= 1)%nat
  | None => False
  end.
Proof.
  destruct (run reconnecting (fst (initWebSocket (loaded dashboard)))) as [w|] eqn:Hrun.
  - apply (proj2 (proj2 (proj2 reconnection_policy)) (loaded dashboard) w reconnecting);
      [reflexivity | reflexivity | exact Hrun].
  - vm_compute in Hrun. discriminate.
Defined.

(** C8, as the specification words it, fails: a second call arms a second
    poll timer. *)
Lemma second_start_arms_second_timer :
  ~ (length (pollTimers (startTimes 2 (loaded dashboard))) <= 1)%nat.
Proof. vm_compute. lia. Qed.

Lemma startRealTimeUpdates_schedule_witness :
  tradeRequests (document (loaded bare_page)) = [] /\
  balanceRequests (document (loaded bare_page)) = [] /\
  step (TimerFires 0)
       (with_now (Z.add 10000) (fst (startRealTimeUpdates (loaded bare_page))))
  = Some (fst (pollTick
                 (with_timers
                    <[0%nat := mkTimer Cb_pollTick (10000 + 10 * second)
                                 (Some (10 * second))]>
                    (with_now (Z.add 10000)
                       (fst (startRealTimeUpdates (loaded bare_page))))))).
Proof.
  pose proof (startRealTimeUpdates_schedule
                (with_now (Z.add 10000) (fst (startRealTimeUpdates (loaded bare_page)))))
    as (_ & _ & Hrows & Hbalances & Htick).
  split; [apply Hrows; reflexivity|].
  split; [apply Hbalances; reflexivity|].
  apply (Htick 0%nat 10000); [reflexivity | vm_compute; discriminate].
Defined.

(** ** Scenarios *)

(** A poll with two trade rows: the endpoint answers executed for T1 and
    success false for T2; T1's badge changes and T2's keeps its value. *)
Example poll_two_trade_rows :
  let w0 := fst (runCallback Cb_pollTick (loaded dashboard)) in
  let w1 := runHandler (settleChain (TradeStatusChain 0)
                          (JsonData (JObj [("success", JBool true);
                                           ("status", JStr "executed")]))) w0 in
  let w2 := runHandler (settleChain (TradeStatusChain 1)
                          (JsonData (JObj [("success", JBool false)]))) w1 in
  request_url <$> inflight w0
  = [ "/api/trade_status/T1"; "/api/trade_status/T2"; "/api/account_balance/master/7";
      "/api/copier_status"; "/api/connections_status" ] /\
  sinkElement (TradeBadge 0) (document w2)
  = Some (mkElement "executed" "badge status-badge bg-success") /\
  sinkElement (TradeBadge 1) (document w2)
  = sinkElement (TradeBadge 1) dashboard.
Proof. vm_compute. repeat split. Qed.

(** A balance of 1250 is shown with two decimals. *)
Example balance_is_formatted :
  sinkElement (BalanceText 0)
    (document (fst (settleChain (AccountBalanceChain 0)
                      (JsonData (JObj [("success", JBool true); ("balance", JNum 1250)]))
                      (loaded dashboard))))
  = Some (mkElement "$1250.00" "account-balance").
Proof. vm_compute. reflexivity. Qed.

(** A trade status that is no string: the text is assigned, the class is
    not, and the failure is logged. *)
Example trade_status_not_a_string :
  let w := fst (settleChain (TradeStatusChain 0)
                  (JsonData (JObj [("success", JBool true); ("status", JNum 5)]))
                  (loaded dashboard)) in
  sinkElement (TradeBadge 0) (document w)
  = Some (mkElement "5" "badge status-badge bg-warning") /\
  console w = ["Status update failed:"].
Proof. vm_compute. split; reflexivity. Qed.

(** A message of each known type puts one notification on the page. *)
Example known_messages_notify :
  let copied := JObj [("type", JStr "trade_copied"); ("followers", JNum 3)] in
  let detected := JObj [("type", JStr "new_trade"); ("symbol", JStr "BTCUSDT");
                        ("side", JStr "BUY")] in
  let w1 := fst (ws_onmessage (Normal copied) (loaded dashboard)) in
  let w2 := fst (ws_onmessage (Normal detected) w1) in
  container (document w2)
  = Some [ mkAlert 1 "alert alert-info alert-dismissible fade show"
                   (alertHTML "New trade detected: BTCUSDT BUY");
           mkAlert 0 "alert alert-success alert-dismissible fade show"
                   (alertHTML "Trade copied to 3 followers") ] /\
  timer_callback <$> timers w2 = [Cb_closeAlert 0; Cb_closeAlert 1].
Proof. vm_compute. split; reflexivity. Qed.

(** A message of an unknown type is logged and dropped; a body that is not
    JSON, or is null, leaves the handler as an exception; none of the three
    puts a notification on the page. *)
Example dropped_messages :
  let opened := with_sockets (fun _ => [mkSocket "wss://dashboard.test/ws" OPEN])
                  (loaded dashboard) in
  (step (SocketMessage 0 (Normal (JObj [("type", JStr "heartbeat")]))) opened
   = Some (with_console (fun _ => ["Unknown message type:"]) opened)) /\
  (step (SocketMessage 0 (Throw SyntaxError)) opened
   = Some (with_uncaught (fun _ => [SyntaxError]) opened)) /\
  (step (SocketMessage 0 (Normal JNull)) opened
   = Some (with_uncaught (fun _ => [TypeError]) opened)).
Proof. vm_compute. repeat split. Qed.

(** ** The further properties on the sample page *)

Lemma trade_status_success_display_witness :
  trade_rows
    (document (fst (settleChain (TradeStatusChain 0)
                      (JsonData (JObj [("success", JBool true); ("status", JStr "Executed")]))
                      (loaded dashboard))))
  = [ mkTradeRow (Some "T1") (Some (mkElement "Executed" "badge status-badge bg-success"));
      mkTradeRow (Some "T2") (Some (mkElement "pending" "badge status-badge bg-warning")) ].
Proof.
  apply (trade_status_success_display (loaded dashboard) 0
           (mkTradeRow (Some "T1") (Some (mkElement "pending" "badge status-badge bg-warning")))
           (mkElement "pending" "badge status-badge bg-warning")
           (JObj [("success", JBool true); ("status", JStr "Executed")])
           (Some (JBool true)) "Executed"
           eq_refl eq_refl eq_refl eq_refl eq_refl).
Defined.

Lemma trade_status_success_edges_witness :
  settleChain (TradeStatusChain 5)
    (JsonData (JObj [("success", JBool true); ("status", @JNum IntegerHost 5)])) (loaded dashboard)
  = (loaded dashboard, Normal tt) /\
  console (fst (settleChain (TradeStatusChain 0)
                  (JsonData (JObj [("success", JBool true); ("status", @JNum IntegerHost 5)]))
                  (loaded dashboard)))
  = ["Status update failed:"].
Proof.
  split.
  - apply (proj1 (trade_status_success_edges (loaded dashboard) 5
                    (JObj [("success", JBool true); ("status", @JNum IntegerHost 5)])
                    (Some (JBool true)) eq_refl eq_refl)).
    reflexivity.
  - apply (proj2 (trade_status_success_edges (loaded dashboard) 0
                    (JObj [("success", JBool true); ("status", @JNum IntegerHost 5)])
                    (Some (JBool true)) eq_refl eq_refl)
             (mkTradeRow (Some "T1")
                (Some (mkElement "pending" "badge status-badge bg-warning")))
             (mkElement "pending" "badge status-badge bg-warning")
             (Some (@JNum IntegerHost 5)) "5" eq_refl eq_refl eq_refl).
    + intros s. discriminate.
    + reflexivity.
Defined.

Lemma account_balance_success_display_witness :
  account_balances
    (document (fst (settleChain (AccountBalanceChain 0)
                      (JsonData (JObj [("success", JBool true); ("balance", @JNum IntegerHost 1250)]))
                      (loaded dashboard))))
  = [ mkBalanceElement (Some "7") (Some "master") (mkElement "$1250.00" "account-balance") ] /\
  document (fst (settleChain (AccountBalanceChain 0)
                   (JsonData (JObj [("success", JBool true); ("balance", JStr "1250")]))
                   (loaded dashboard)))
  = dashboard.
Proof.
  split.
  - apply (proj1 (proj2 (account_balance_success_display (loaded dashboard) 0
                           (mkBalanceElement (Some "7") (Some "master")
                              (mkElement "$0.00" "account-balance"))
                           (JObj [("success", JBool true); ("balance", @JNum IntegerHost 1250)])
                           (Some (JBool true)) (Some (@JNum IntegerHost 1250))
                           eq_refl eq_refl eq_refl eq_refl)) 1250 eq_refl).
  - apply (proj2 (proj2 (account_balance_success_display (loaded dashboard) 0
                           (mkBalanceElement (Some "7") (Some "master")
                              (mkElement "$0.00" "account-balance"))
                           (JObj [("success", JBool true); ("balance", JStr "1250")])
                           (Some (JBool true)) (Some (JStr "1250"))
                           eq_refl eq_refl eq_refl eq_refl))).
    intros n. discriminate.
Defined.

Lemma refresh_writes_own_sinks_witness :
  sinkElement (TradeBadge 1)
    (document (fst (settleChain (TradeStatusChain 0)
                      (JsonData (JObj [("success", JBool true); ("status", JStr "failed")]))
                      (loaded dashboard))))
  = sinkElement (TradeBadge 1) dashboard.
Proof.
  apply (refresh_writes_own_sinks (TradeStatusChain 0)
           (JsonData (JObj [("success", JBool true); ("status", JStr "failed")]))
           (loaded dashboard) (TradeBadge 1)).
  reflexivity.
Defined.


Lemma poll_timers_are_kept_witness :
  match run [FetchSettles 0 FetchRejected; Elapse 10000; TimerFires 0;
             FetchSettles 0 JsonRejected]
            (fst (startRealTimeUpdates (loaded dashboard)))
  with
  | Some w => length (pollTimers w) = 1%nat
  | None => False
  end.
Proof.
  destruct (run [FetchSettles 0 FetchRejected; Elapse 10000; TimerFires 0;
                 FetchSettles 0 JsonRejected]
                (fst (startRealTimeUpdates (loaded dashboard)))) as [w|] eqn:Hrun.
  - rewrite (poll_timers_are_kept _ _ w Hrun). reflexivity.
  - vm_compute in Hrun. discriminate.
Defined.

Lemma trade_badge_shows_last_success_witness :
  sinkElement (TradeBadge 0)
    (document
       (settleAll (TradeStatusChain 0)
          ([ FetchRejected;
             JsonData (JObj [("success", JBool true); ("status", JStr "pending")]) ]
           ++ JsonData (JObj [("success", JBool true); ("status", JStr "executed")])
           :: [ JsonRejected; JsonData (JObj [("success", JBool false)]) ])%list
          (loaded dashboard)))
  = Some (mkElement "executed" "badge status-badge bg-success").
Proof.
  apply (trade_badge_shows_last_success (loaded dashboard) 0
           (mkTradeRow (Some "T1") (Some (mkElement "pending" "badge status-badge bg-warning")))
           (mkElement "pending" "badge status-badge bg-warning")
           [ FetchRejected;
             JsonData (JObj [("success", JBool true); ("status", JStr "pending")]) ]
           [ JsonRejected; JsonData (JObj [("success", JBool false)]) ]
           (JObj [("success", JBool true); ("status", JStr "executed")])
           (Some (JBool true)) "executed"
           eq_refl eq_refl eq_refl eq_refl eq_refl eq_refl).
Defined.

Lemma only_messages_raise_witness :
  match step (FetchSettles 0 (JsonData JNull)) (fst (startRealTimeUpdates (loaded dashboard)))
  with
  | Some w => uncaught w = []
  | None => False
  end.
Proof.
  destruct (step (FetchSettles 0 (JsonData JNull))
              (fst (startRealTimeUpdates (loaded dashboard)))) as [w|] eqn:Hstep.
  - apply (only_messages_raise (FetchSettles 0 (JsonData JNull)) _ w eq_refl Hstep).
  - vm_compute in Hstep. discriminate.
Defined.

Lemma notification_is_dismissed_alone_witness :
  document (fst (runCallback (Cb_closeAlert 0)
                   (fst (showAlert "info" "New trade detected: BTCUSDT BUY"
                           (loaded dashboard)))))
  = dashboard.
Proof.
  apply (notification_is_dismissed_alone "info" "New trade detected: BTCUSDT BUY"
           (loaded dashboard) [] eq_refl).
  split; constructor.
Defined.

Lemma notification_needs_container_witness :
  handleWebSocketMessage (JObj [("type", JStr "trade_copied"); ("followers", @JNum IntegerHost 3)])
    (loaded bare_page)
  = (with_created S (loaded bare_page), Throw TypeError).
Proof.
  apply (notification_needs_container
           [("type", JStr "trade_copied"); ("followers", @JNum IntegerHost 3)] "trade_copied"
           (loaded bare_page) eq_refl eq_refl eq_refl).
  intros key. cbn [ownProperty].
  destruct (String.eqb "followers" key), (String.eqb "type" key); reflexivity.
Defined.


Lemma handleWebSocketMessage_known_witness :
  container
    (document (fst (handleWebSocketMessage
                      (JObj [("type", JStr "trade_failed"); ("error", JStr "margin")])
                      (loaded dashboard))))
  = Some [ mkAlert 0 "alert alert-danger alert-dismissible fade show"
                   (alertHTML "Trade copy failed: margin") ].
Proof.
  apply (proj2 (proj2 (handleWebSocketMessage_known
                         [("type", JStr "trade_failed"); ("error", JStr "margin")]
                         (loaded dashboard) [] eq_refl)) "margin" eq_refl eq_refl).
Defined.

Lemma handleWebSocketMessage_unknown_witness :
  handleWebSocketMessage (JObj [("type", JStr "heartbeat")]) (loaded dashboard)
  = (with_console (fun c => (c ++ ["Unknown message type:"])%list) (loaded dashboard),
     Normal tt).
Proof.
  apply (handleWebSocketMessage_unknown (JObj [("type", JStr "heartbeat")])
           (Some (JStr "heartbeat")) (loaded dashboard) eq_refl).
  intros t Ht. injection Ht as <-. repeat split; discriminate.
Defined.


Lemma validateApiCredentials_rejects_witness :
  alerts (fst (validateApiCredentials (mkCredentialsForm (Some "short") (Some "secret"))
                 (loaded dashboard)))
  = [ mkAlert 0 "alert alert-danger alert-dismissible fade show"
              (alertHTML "API Key appears to be invalid") ].
Proof.
  apply (validateApiCredentials_rejects (mkCredentialsForm (Some "short") (Some "secret"))
           "short" "secret" (loaded dashboard) [] eq_refl eq_refl eq_refl eq_refl).
Defined.

Lemma validateApiCredentials_raises_witness :
  validateApiCredentials (mkCredentialsForm (Some "AKIA1234567890") None) (loaded dashboard)
  = (loaded dashboard, Throw TypeError) /\
  validateApiCredentials (mkCredentialsForm (Some "") (Some "secret")) (loaded bare_page)
  = (with_created S (loaded bare_page), Throw TypeError).
Proof.
  split.
  - apply (proj1 (validateApiCredentials_raises
                    (mkCredentialsForm (Some "AKIA1234567890") None) (loaded dashboard))).
    right. reflexivity.
  - apply (proj2 (validateApiCredentials_raises
                    (mkCredentialsForm (Some "") (Some "secret")) (loaded bare_page))
             "" "secret" eq_refl eq_refl eq_refl eq_refl).
Defined.

Lemma reconnection_round_witness :
  run [SocketCloses 0; Elapse 4999; TimerFires 0] connected = None /\
  exists w' : World,
    run [SocketCloses 0; Elapse 5000; TimerFires 0] connected = Some w' /\
    timers w' = [] /\
    sockets w' = [ mkSocket "wss://dashboard.test/ws" CLOSED;
                   mkSocket "wss://dashboard.test/ws" CONNECTING ].
Proof.
  split.
  - apply (proj1 (reconnection_round connected 0
                    (mkSocket "wss://dashboard.test/ws" OPEN) 4999 eq_refl eq_refl)).
    unfold second. lia.
  - apply (proj2 (reconnection_round connected 0
                    (mkSocket "wss://dashboard.test/ws" OPEN) 5000 eq_refl eq_refl)).
    unfold second. lia.
Defined.

Lemma exportTradesToCSV_reads_back_witness :
  exists file : Download,
    exportTradesToCSV (Some trades_table) "2024-05-17T09:30:00.000Z" = Some file /\
    download_name file
    = "trades_" ++ hd "" (String_split "T" "2024-05-17T09:30:00.000Z") ++ ".csv" /\
    readCSV (download_content file) = trades_table.
Proof.
  apply (proj2 (exportTradesToCSV_reads_back trades_table "2024-05-17T09:30:00.000Z"
                  eq_refl)).
Defined.

Lemma exportTradesToCSV_quotes_nothing_witness :
  exists file : Download,
    exportTradesToCSV (Some [["T1"; "1,250.00"]]) "2024-05-17T09:30:00.000Z" = Some file /\
    download_content file = String.concat "," ["T1"; "1,250.00"] /\
    length (String_split "," (download_content file))
    = (length ["T1"; "1,250.00"] + list_sum (map (occurrences ",") ["T1"; "1,250.00"]))%nat.
Proof.
  apply (exportTradesToCSV_quotes_nothing ["T1"; "1,250.00"] "2024-05-17T09:30:00.000Z").
  discriminate.
Defined.

(** The exported file of the sample table, and the name it gets. *)
Example export_of_sample_table :
  exportTradesToCSV (Some trades_table) "2024-05-17T09:30:00.000Z"
  = Some (mkDownload "trades_2024-05-17.csv"
            ("Id,Symbol,Status" ++ newline ++ "T1,BTCUSDT,executed" ++ newline
             ++ "T2,ETHUSDT,pending")).
Proof. vm_compute. reflexivity. Qed.
